(** * biblia-api: option validation, URL rendering and response dispatch

    A shallow embedding of [lib/client.ts] (the TypeScript client) and of the
    functions of the older [index.js] that differ from it, followed by the
    properties of the request pipeline:
    validate -> render URL -> fetch -> check status -> transform response. *)

From Stdlib Require Import String Ascii List ZArith NArith Bool Lia DecimalString.
From Stdlib Require Import Permutation.
Import ListNotations.
Open Scope string_scope.

(* ================================================================== *)
(** ** JavaScript values and strings *)
(* ================================================================== *)

(** A JavaScript string is modelled by a Rocq [string] whose characters are
    the UTF-16 code units U+0000..U+00FF of the JS string (ASCII and the
    Latin-1 supplement).  On this range every string operation the client
    uses ([toLowerCase], [split], [encodeURIComponent]) is total and has a
    closed form; strings with code units above U+00FF are not represented.
    Two things happen only outside this range: [encodeURIComponent] throws
    a [URIError] on a string that holds a lone surrogate, and [toLowerCase]
    maps some characters above U+00FF to ASCII letters (U+212A to [k]).

    Numbers are the integer-valued ones, printed in decimal as
    [Number::toString] does for integers of magnitude below 10^21; larger
    numbers, fractions, [NaN] and the infinities are not represented.

    [VObj] stands for an ordinary object or function, one that has no
    [toLowerCase] method; wrapper objects such as [new String('leb')] are
    not represented. *)
Inductive value : Type :=
  | VUndefined
  | VNull
  | VBool (b : bool)
  | VNum (n : Z)
  | VStr (s : string)
  | VObj (callable : bool) (repr : string).
    (* an object or a function; [repr] is what ToString yields for it *)

Definition typeof (v : value) : string :=
  match v with
  | VUndefined => "undefined"
  | VNull => "object"
  | VBool _ => "boolean"
  | VNum _ => "number"
  | VStr _ => "string"
  | VObj true _ => "function"
  | VObj false _ => "object"
  end.

(** [value === undefined] *)
Definition isUndefined (v : value) : bool :=
  match v with VUndefined => true | _ => false end.

(** The abstract operation ToString, applied by [encodeURIComponent] and by
    template literals to their argument. *)
Definition ToString (v : value) : string :=
  match v with
  | VUndefined => "undefined"
  | VNull => "null"
  | VBool true => "true"
  | VBool false => "false"
  | VNum n => NilZero.string_of_int (Z.to_int n)
  | VStr s => s
  | VObj _ repr => repr
  end.

(** An ordinary object: its own enumerable string-keyed properties in the
    order [Object.entries] and [for ... in] enumerate them (for keys that are
    not array indices this is insertion order). *)
Definition obj : Type := list (string * value).

Definition nativeFunction (name : string) : value :=
  VObj true ("function " ++ name ++ "() { [native code] }").

(** The properties every object created by [{}] inherits from
    [Object.prototype]; none of them is enumerable.  The [repr] strings are
    those of V8; only the property names and the fact that each value is an
    object are used below. *)
Definition objectPrototype : obj :=
  [ ("constructor", nativeFunction "Object");
    ("hasOwnProperty", nativeFunction "hasOwnProperty");
    ("isPrototypeOf", nativeFunction "isPrototypeOf");
    ("propertyIsEnumerable", nativeFunction "propertyIsEnumerable");
    ("toLocaleString", nativeFunction "toLocaleString");
    ("toString", nativeFunction "toString");
    ("valueOf", nativeFunction "valueOf");
    ("__proto__", VObj false "[object Object]");
    ("__defineGetter__", nativeFunction "__defineGetter__");
    ("__defineSetter__", nativeFunction "__defineSetter__");
    ("__lookupGetter__", nativeFunction "__lookupGetter__");
    ("__lookupSetter__", nativeFunction "__lookupSetter__") ].

Fixpoint getOwn {A : Type} (o : list (string * A)) (key : string) : option A :=
  match o with
  | [] => None
  | (k, v) :: rest => if String.eqb k key then Some v else getOwn rest key
  end.

(** [o[key]] on an ordinary object: the own property if there is one, else
    the property inherited from [Object.prototype], else [undefined]. *)
Definition get (o : obj) (key : string) : value :=
  match getOwn o key with
  | Some v => v
  | None =>
      match getOwn objectPrototype key with
      | Some v => v
      | None => VUndefined
      end
  end.

Definition memb (key : string) (keys : list string) : bool :=
  existsb (String.eqb key) keys.

(** Truthiness of [hash[key]] for a lookup table built with
    [Object.assign({}, ...)] whose own values are all truthy ([true] or a
    function): the own keys answer, and so does everything inherited from
    [Object.prototype]. *)
Definition hashTruthy (ownKeys : list string) (key : string) : bool :=
  memb key ownKeys || memb key (map fst objectPrototype).

(* ------------------------------------------------------------------ *)
(** *** String.prototype.toLowerCase *)

Definition isUpperUnit (c : ascii) : bool :=
  let n := N_of_ascii c in
  ((65 <=? n) && (n <=? 90)          (* A-Z *)
   || (192 <=? n) && (n <=? 214)     (* U+00C0-U+00D6 *)
   || (216 <=? n) && (n <=? 222))%N. (* U+00D8-U+00DE *)

Definition lowerUnit (c : ascii) : ascii :=
  if isUpperUnit c then ascii_of_N (N_of_ascii c + 32) else c.

Fixpoint toLowerCase (s : string) : string :=
  match s with
  | EmptyString => EmptyString
  | String c rest => String (lowerUnit c) (toLowerCase rest)
  end.

(* ------------------------------------------------------------------ *)
(** *** encodeURIComponent (ECMA-262, Encode with the set uriUnreserved) *)

Definition isAlphaUnit (c : ascii) : bool :=
  let n := N_of_ascii c in
  ((65 <=? n) && (n <=? 90) || (97 <=? n) && (n <=? 122))%N.

Definition isDigitUnit (c : ascii) : bool :=
  let n := N_of_ascii c in ((48 <=? n) && (n <=? 57))%N.

(** uriMark: [- _ . ! ~ * ' ( )] *)
Definition uriMark : list ascii :=
  list_ascii_of_string "-_.!~*'()".

Definition uriUnreserved (c : ascii) : bool :=
  isAlphaUnit c || isDigitUnit c || existsb (Ascii.eqb c) uriMark.

Definition hexDigit (n : N) : ascii :=
  match String.get (N.to_nat n) "0123456789ABCDEF" with
  | Some d => d
  | None => "0"%char
  end.

(** [%XY] for one octet. *)
Definition percentOctet (b : N) : string :=
  String "%" (String (hexDigit (b / 16)) (String (hexDigit (b mod 16)) "")).

(** UTF-8 octets of a code point below U+0100. *)
Definition utf8 (cp : N) : list N :=
  if (cp <? 128)%N then [cp] else [(192 + cp / 64)%N; (128 + cp mod 64)%N].

Definition encodeUnit (c : ascii) : string :=
  if uriUnreserved c then String c ""
  else String.concat "" (map percentOctet (utf8 (N_of_ascii c))).

Fixpoint Encode (s : string) : string :=
  match s with
  | EmptyString => EmptyString
  | String c rest => encodeUnit c ++ Encode rest
  end.

Definition encodeURIComponent (v : value) : string := Encode (ToString v).

(* ------------------------------------------------------------------ *)
(** *** split, includes, join *)

(** [s.split(';', 2)[0]]: the part of [s] before its first [;]. *)
Fixpoint splitFirst (s : string) : string :=
  match s with
  | EmptyString => EmptyString
  | String c rest =>
      if Ascii.eqb c ";" then EmptyString else String c (splitFirst rest)
  end.

(** [xs.includes(x)] on an array of strings. *)
Definition includes (xs : list string) (x : string) : bool := memb x xs.

(** [xs.join(sep)] *)
Definition join (sep : string) (xs : list string) : string :=
  String.concat sep xs.

(* ================================================================== *)
(** ** Responses, exceptions and the effects of an endpoint call *)
(* ================================================================== *)

(** What a body-decoding promise settles to. *)
Inductive settled : Type :=
  | Fulfilled (payload : string)
  | Rejected (message : string).

(** The part of a fetch response the client relies on
    ([type Response<TBlob>]).  The three body fields say what the promise
    returned by the method of that name settles to when it is called. *)
Record Response : Type := {
  status : Z;
  headers_get : string -> option string;
  json : settled;
  text : settled;
  blob : settled
}.

(** What a [throw] carries: an [Error] with its message, a [TypeError]
    raised by the runtime (its message is engine specific), or a response
    thrown as it is. *)
Inductive exn : Type :=
  | Error (message : string)
  | TypeError
  | Thrown (response : Response).

Inductive result (A : Type) : Type :=
  | Ok (a : A)
  | Throw (e : exn).
Arguments Ok {A} a.
Arguments Throw {A} e.

Definition bindResult {A B : Type} (r : result A) (k : A -> result B)
  : result B :=
  match r with
  | Ok a => k a
  | Throw e => Throw e
  end.

Notation "x <- r ;; k" := (bindResult r (fun x => k))
  (at level 61, r at next level, right associativity).
Notation "r ;; k" := (bindResult r (fun _ => k))
  (at level 61, right associativity).

(** Calls an endpoint makes on what was injected into it, in order. *)
Inductive event : Type :=
  | CallFetch (url : string)
  | CallTransform
  | CallJson
  | CallText
  | CallBlob.

(** An asynchronous computation: it extends the log of calls made so far
    and settles to a value or to a rejection. *)
Definition M (A : Type) : Type := list event -> list event * result A.

Definition ret {A : Type} (a : A) : M A := fun log => (log, Ok a).

Definition bind {A B : Type} (m : M A) (k : A -> M B) : M B :=
  fun log =>
    match m log with
    | (log', Ok a) => k a log'
    | (log', Throw e) => (log', Throw e)
    end.

(** A synchronous step inside an [async] function: a [throw] rejects. *)
Definition lift {A : Type} (r : result A) : M A := fun log => (log, r).

Definition tell (e : event) : M unit := fun log => ((log ++ [e])%list, Ok tt).

Notation "'await' x <- m ;; k" := (bind m (fun x => k))
  (at level 61, x name, m at next level, right associativity).

Definition settle (s : settled) : result string :=
  match s with
  | Fulfilled payload => Ok payload
  | Rejected message => Throw (Error message)
  end.

(** [response.json()], [response.text()], [response.blob()] *)
Definition callJson (response : Response) : M string :=
  await _ <- tell CallJson ;; lift (settle (json response)).

Definition callText (response : Response) : M string :=
  await _ <- tell CallText ;; lift (settle (text response)).

Definition callBlob (response : Response) : M string :=
  await _ <- tell CallBlob ;; lift (settle (blob response)).

Definition isDecode (e : event) : bool :=
  match e with
  | CallJson | CallText | CallBlob => true
  | _ => false
  end.

Definition isFetch (e : event) : bool :=
  match e with CallFetch _ => true | _ => false end.

(* ================================================================== *)
(** ** lib/client.ts *)
(* ================================================================== *)

Definition baseUrl : string := "https://api.biblia.com/v1/".

(** [x || ''] for [x : string | null] *)
Definition orEmpty (x : option string) : string :=
  match x with
  | Some s => s
  | None => ""
  end.

(** [(response.headers.get('Content-Type') || '').split(';', 2)[0]] *)
Definition contentTypeOf (response : Response) : string :=
  splitFirst (orEmpty (headers_get response "Content-Type")).

Definition expectContentType (response : Response)
    (expectedTypes : list string) : result unit :=
  let contentType := contentTypeOf response in
  if negb (includes expectedTypes contentType)
  then Throw (Error ("Unexpected response Content-Type: " ++ contentType))
  else Ok tt.

Definition expectJsonResult (response : Response) : M string :=
  await _ <- lift (expectContentType response ["application/json"]) ;;
  callJson response.

Definition createJsonResultParser : Response -> M string :=
  fun response => expectJsonResult response.

Definition expectTextResult (response : Response) : M string :=
  await _ <- lift (expectContentType response ["text/html"; "text/plain"]) ;;
  callText response.

Definition expectImageResult (response : Response) : M string :=
  await _ <- lift (expectContentType response ["image/jpeg"]) ;;
  callBlob response.

(** The argument of an endpoint call: nothing, [null], or an object. *)
Inductive options_arg : Type :=
  | OUndefined
  | ONull
  | OObject (o : obj).

(** The injected fetch: the outcome of the promise it returns for a URL. *)
Definition FetchMethod : Type := string -> result Response.

Definition callFetch (fetch : FetchMethod) (url : string) : M Response :=
  await _ <- tell (CallFetch url) ;; lift (fetch url).

Definition callTransform {A : Type} (transformResponse : Response -> M A)
    (response : Response) : M A :=
  await _ <- tell CallTransform ;; transformResponse response.

Definition createEndpoint {A : Type}
    (fetch : FetchMethod)
    (validateOptions : options_arg -> result unit)
    (renderUrl : options_arg -> result string)
    (transformResponse : Response -> M A)
  : options_arg -> M A :=
  fun options =>
    await _ <- lift (validateOptions options) ;;
    await url <- lift (renderUrl options) ;;
    await response <- callFetch fetch url ;;
    (if negb (status response =? 200)%Z
     then lift (Throw (Thrown response))
     else callTransform transformResponse response).

(* ------------------------------------------------------------------ *)
(** *** Option validators *)

(** A validator returns [true] or throws. *)
Definition Validator : Type := value -> result unit.
Definition ValidationFactory : Type := string -> Validator.

(** A factory together with its [optional] property. *)
Record OptionalValidationFactory : Type := {
  required :> ValidationFactory;
  optional : ValidationFactory
}.

Fixpoint checkSupported (ownKeys : list string) (keys : list string)
  : result unit :=
  match keys with
  | [] => Ok tt
  | key :: rest =>
      if negb (hashTruthy ownKeys key)
      then Throw (Error ("Option " ++ key ++ " is not supported."))
      else checkSupported ownKeys rest
  end.

Fixpoint runValidators (validateFunctions : list (string * Validator))
    (options : obj) : result unit :=
  match validateFunctions with
  | [] => Ok tt
  | (key, validate) :: rest =>
      let value := get options key in
      validate value ;;
      runValidators rest options
  end.

(** [validators] lists the entries of the schema object in declaration
    order; its keys are distinct and none of them is [__proto__], so that
    [Object.assign] copies each entry as an own property of
    [validateFunctions]. *)
Definition createOptionsValidator
    (validators : list (string * ValidationFactory))
  : options_arg -> result unit :=
  let validateFunctions :=
    map (fun entry => (fst entry, snd entry (fst entry))) validators in
  fun options =>
    match options with
    | OUndefined | ONull => Throw (Error "Options is required.")
    | OObject o =>
        checkSupported (map fst validateFunctions) (map fst o) ;;
        runValidators validateFunctions o ;;
        Ok tt
    end.

Definition allowOptional (fn : ValidationFactory) : OptionalValidationFactory :=
  {| required := fn;
     optional := fun optionName =>
       let validate := fn optionName in
       fun value =>
         if isUndefined value then Ok tt else validate value |}.

Definition validateEnumMembership (values : list string)
  : OptionalValidationFactory :=
  let valuesHash := hashTruthy (map toLowerCase values) in
  allowOptional (fun optionName =>
    let errorMessage :=
      "Option " ++ optionName ++ " must be one of " ++ join ", " values ++ "." in
    fun value =>
      match value with
      | VStr s =>
          if negb (valuesHash (toLowerCase s))
          then Throw (Error errorMessage)
          else Ok tt
      | _ => Throw (Error errorMessage)
      end).

Definition validateIsString : OptionalValidationFactory :=
  allowOptional (fun optionName =>
    let errorMessage := "Option " ++ optionName ++ " must be a string." in
    fun value =>
      if negb (String.eqb (typeof value) "string")
      then Throw (Error errorMessage)
      else Ok tt).

Definition validateIsBoolean : OptionalValidationFactory :=
  allowOptional (fun optionName =>
    let errorMessage := "Option " ++ optionName ++ " must be a boolean." in
    fun value =>
      if negb (String.eqb (typeof value) "boolean")
      then Throw (Error errorMessage)
      else Ok tt).

Definition validateIsNumber : OptionalValidationFactory :=
  allowOptional (fun optionName =>
    let errorMessage := "Option " ++ optionName ++ " must be a number." in
    fun value =>
      if negb (String.eqb (typeof value) "number")
      then Throw (Error errorMessage)
      else Ok tt).

(* ------------------------------------------------------------------ *)
(** *** The schemas of the endpoints *)

Definition availableBibles : list string :=
  [ "asv"; "arvandyke"; "kjv"; "lsg"; "byz"; "darby"; "elzevir";
    "itdiodati1649"; "emphbbl"; "kjv1900"; "kjvapoc"; "leb"; "scrmorph";
    "fi-raamattu"; "rvr60"; "rva"; "bb-sbb-rusbt"; "eo-zamenbib"; "tr1881";
    "tr1894mr"; "svv"; "stephens"; "tanakh"; "wbtc-ptbrnt"; "wh1881mr";
    "ylt" ].

Definition bibleVersionValidator : OptionalValidationFactory :=
  validateEnumMembership availableBibles.

Definition Validators : Type := list (string * ValidationFactory).

Definition contentStyles : list string :=
  [ "fullyFormatted"; "oneVersePerLine"; "oneVersePerLineFullReference";
    "quotation"; "simpleParagraphs"; "bibleTextOnly"; "orationOneParagraph";
    "orationOneVersePerLine"; "orationBibleParagraphs";
    "fullyFormattedWithFootnotes" ].

Definition bibleContentOptions : Validators :=
  [ ("bible", required bibleVersionValidator);
    ("passage", required validateIsString);
    ("format", required (validateEnumMembership ["txt"; "html"; "txt"; "html"]));
    ("style", optional (validateEnumMembership contentStyles));
    ("formatting", optional validateIsString);
    ("redLetter", optional validateIsBoolean);
    ("footnotes", optional validateIsBoolean);
    ("citation", optional validateIsBoolean);
    ("paragraphs", optional validateIsBoolean);
    ("fullText", optional validateIsBoolean);
    ("header", optional validateIsString);
    ("eachVerse", optional validateIsString);
    ("footer", optional validateIsString) ].

Definition pagingOptions : Validators :=
  [ ("start", optional validateIsNumber);
    ("limit", optional validateIsNumber) ].

Definition searchOptions : Validators :=
  ([ ("bible", required bibleVersionValidator);
    ("query", required validateIsString);
    ("mode", optional (validateEnumMembership ["verse"; "fuzzy"]));
    ("passages", optional validateIsString);
    ("preview", optional (validateEnumMembership ["none"; "text"; "html"]));
    ("sort", optional (validateEnumMembership ["relevance"; "passage"])) ]
  ++ pagingOptions)%list.

Definition specificBibleOptions : Validators :=
  [ ("bible", required bibleVersionValidator) ].

Definition findOptions : Validators :=
  ([ ("query", optional validateIsString);
     ("strictQuery", optional validateIsBoolean) ]
   ++ pagingOptions)%list.

Definition parseOptions : Validators :=
  [ ("passage", required validateIsString);
    ("style", optional (validateEnumMembership ["short"; "medium"; "long"])) ].

Definition scanOptions : Validators :=
  [ ("text", required validateIsString);
    ("tagChapters", optional validateIsBoolean) ].

Definition tagOptions : Validators :=
  [ ("text", optional validateIsString);
    ("url", optional validateIsString);
    ("tagFormat", optional validateIsString);
    ("tagChapters", optional validateIsBoolean) ].

Definition compareOptions : Validators :=
  [ ("first", required validateIsString);
    ("second", required validateIsString) ].

Definition validateBibleContentOptions := createOptionsValidator bibleContentOptions.
Definition validateSearchOptions := createOptionsValidator searchOptions.
Definition validateSpecificBibleOptions := createOptionsValidator specificBibleOptions.
Definition validateFindOptions := createOptionsValidator findOptions.
Definition validateParseOptions := createOptionsValidator parseOptions.
Definition validateScanOptions := createOptionsValidator scanOptions.
Definition validateTagOptions := createOptionsValidator tagOptions.
Definition validateCompareOptions := createOptionsValidator compareOptions.

(* ------------------------------------------------------------------ *)
(** *** URL templates and the client *)

(** [urlParts[i]] inside a string concatenation: a missing element reads as
    [undefined]. *)
Definition part (urlParts : list string) (i : nat) : string :=
  match nth_error urlParts i with
  | Some s => s
  | None => "undefined"
  end.

(** [xs.map((x, index) => f(x, index))] with a callback that may throw;
    [index] is the index of the head of [xs]. *)
Fixpoint arrayMap {A B : Type} (f : A -> nat -> result B) (xs : list A)
    (index : nat) : result (list B) :=
  match xs with
  | [] => Ok []
  | x :: rest =>
      y <- f x index ;;
      ys <- arrayMap f rest (S index) ;;
      Ok (y :: ys)
  end.

(** The operations of the client, named as the properties of the object
    [createBibliaApiClient] returns. *)
Inductive operation : Type :=
  | content | tableOfContents | search | findBible | find
  | image | parse | scan | tag | compare.

Section createBibliaApiClient.

Variable apiKey : string.
Variable fetch : FetchMethod.

(** [createUrlTemplate(urlParts, ...names)].  Called as a template tag,
    [urlParts] has one element more than [names].  The check that every
    name is a string is discharged by the type of [names]. *)
Definition createUrlTemplate (urlParts : list string) (names : list string)
  : options_arg -> result string :=
  let beginning := baseUrl ++ part urlParts 0 in
  let namesHash := hashTruthy names in
  fun options =>
    match options with
    | OUndefined | ONull => Throw TypeError
    | OObject o =>
        path <-
          (parts <-
             arrayMap (fun name index =>
               let value := get o name in
               if isUndefined value
               then Throw (Error ("Parameter " ++ name ++ " is required."))
               else Ok (encodeURIComponent value ++ part urlParts (index + 1)))
             names 0 ;;
           Ok (join "" parts)) ;;
        let queryParameters :=
          join "&"
            (map (fun entry =>
                    encodeURIComponent (VStr (fst entry)) ++ "="
                    ++ encodeURIComponent (snd entry))
               (filter (fun entry =>
                          negb (namesHash (fst entry))
                          && negb (isUndefined (snd entry))) o
                ++ [("key", VStr apiKey)])%list) in
        Ok (beginning ++ path ++ "?" ++ queryParameters)
    end.

Definition createBibliaApiClient (op : operation) : options_arg -> M string :=
  match op with
  | content =>
      createEndpoint fetch validateBibleContentOptions
        (createUrlTemplate ["bible/content/"; "."; ""] ["bible"; "format"])
        expectTextResult
  | tableOfContents =>
      createEndpoint fetch validateSpecificBibleOptions
        (createUrlTemplate ["bible/contents/"; ""] ["bible"])
        createJsonResultParser
  | search =>
      createEndpoint fetch validateSearchOptions
        (createUrlTemplate ["bible/search/"; ""] ["bible"])
        createJsonResultParser
  | findBible =>
      createEndpoint fetch validateSpecificBibleOptions
        (createUrlTemplate ["bible/find/"; ""] ["bible"])
        createJsonResultParser
  | find =>
      createEndpoint fetch validateFindOptions
        (createUrlTemplate ["bible/find"] [])
        createJsonResultParser
  | image =>
      createEndpoint fetch validateSpecificBibleOptions
        (createUrlTemplate ["bible/image/"; ""] ["bible"])
        expectImageResult
  | parse =>
      createEndpoint fetch validateParseOptions
        (createUrlTemplate ["bible/parse"] [])
        createJsonResultParser
  | scan =>
      createEndpoint fetch validateScanOptions
        (createUrlTemplate ["bible/scan"] [])
        createJsonResultParser
  | tag =>
      createEndpoint fetch validateTagOptions
        (createUrlTemplate ["bible/tag"] [])
        createJsonResultParser
  | compare =>
      createEndpoint fetch validateCompareOptions
        (createUrlTemplate ["bible/compare"] [])
        createJsonResultParser
  end.

End createBibliaApiClient.

(** The pieces each operation is assembled from, for stating properties. *)
Definition schemaOf (op : operation) : Validators :=
  match op with
  | content => bibleContentOptions
  | tableOfContents | findBible | image => specificBibleOptions
  | search => searchOptions
  | find => findOptions
  | parse => parseOptions
  | scan => scanOptions
  | tag => tagOptions
  | compare => compareOptions
  end.

Definition urlPartsOf (op : operation) : list string :=
  match op with
  | content => ["bible/content/"; "."; ""]
  | tableOfContents => ["bible/contents/"; ""]
  | search => ["bible/search/"; ""]
  | findBible => ["bible/find/"; ""]
  | find => ["bible/find"]
  | image => ["bible/image/"; ""]
  | parse => ["bible/parse"]
  | scan => ["bible/scan"]
  | tag => ["bible/tag"]
  | compare => ["bible/compare"]
  end.

Definition namesOf (op : operation) : list string :=
  match op with
  | content => ["bible"; "format"]
  | tableOfContents | search | findBible | image => ["bible"]
  | find | parse | scan | tag | compare => []
  end.

(** The response transformers of the client. *)
Inductive transformer : Type := JsonResult | TextResult | ImageResult.

Definition transformerOf (op : operation) : transformer :=
  match op with
  | content => TextResult
  | image => ImageResult
  | _ => JsonResult
  end.

Definition expectedTypes (t : transformer) : list string :=
  match t with
  | JsonResult => ["application/json"]
  | TextResult => ["text/html"; "text/plain"]
  | ImageResult => ["image/jpeg"]
  end.

Definition transformResponse (t : transformer) : Response -> M string :=
  match t with
  | JsonResult => createJsonResultParser
  | TextResult => expectTextResult
  | ImageResult => expectImageResult
  end.

(** The URL an operation renders for an options object. *)
Definition renderUrl (apiKey : string) (op : operation)
  : options_arg -> result string :=
  createUrlTemplate apiKey (urlPartsOf op) (namesOf op).

(* ================================================================== *)
(** ** index.js *)
(* ================================================================== *)

(** The JavaScript predecessor of the client.  Its endpoint factory decodes
    the body inline, its validators return nothing, and its URL renderer
    does not look at the values it substitutes. *)
Module IndexJs.

Definition createEndpoint
    (fetch : FetchMethod)
    (validateOptions : options_arg -> result unit)
    (renderUrl : options_arg -> result string)
  : options_arg -> M string :=
  fun options =>
    await _ <- lift (validateOptions options) ;;
    await url <- lift (renderUrl options) ;;
    await response <- callFetch fetch url ;;
    (if negb (status response =? 200)%Z
     then lift (Throw (Thrown response))
     else
       let contentType := contentTypeOf response in
       if String.eqb contentType "application/json" then callJson response
       else if String.eqb contentType "text/html" then callText response
       else if String.eqb contentType "text/plain" then callText response
       else if String.eqb contentType "image/jpeg" then callBlob response
       else lift (Throw (Error
              ("Unexpected response Content-Type: " ++ contentType)))).

Definition allowOptional (fn : ValidationFactory) : OptionalValidationFactory :=
  {| required := fn;
     optional := fun optionName =>
       let validate := fn optionName in
       fun value =>
         if negb (isUndefined value) then validate value else Ok tt |}.

(** [value.toLowerCase()] is called on whatever is passed: on [undefined]
    and [null] the property access throws a [TypeError], and so does the
    call on a boolean, a number or an ordinary object, none of which has
    such a method. *)
Definition validateEnumMembership (values : list string)
  : OptionalValidationFactory :=
  let valuesHash := hashTruthy (map toLowerCase values) in
  allowOptional (fun optionName =>
    let errorMessage :=
      "Option " ++ optionName ++ " must be one of " ++ join ", " values ++ "." in
    fun value =>
      match value with
      | VStr s =>
          if negb (valuesHash (toLowerCase s))
          then Throw (Error errorMessage)
          else Ok tt
      | _ => Throw TypeError
      end).

Definition validateTypeOf (expectedType : string) : OptionalValidationFactory :=
  allowOptional (fun optionName =>
    let errorMessage :=
      "Option " ++ optionName ++ " must be a " ++ expectedType ++ "." in
    fun value =>
      if negb (String.eqb (typeof value) expectedType)
      then Throw (Error errorMessage)
      else Ok tt).

Definition createUrlTemplate (apiKey : string) (urlParts : list string)
    (names : list string) : options_arg -> result string :=
  let beginning := baseUrl ++ part urlParts 0 in
  let namesHash := hashTruthy names in
  fun options =>
    match options with
    | OUndefined | ONull => Throw TypeError
    | OObject o =>
        path <-
          (parts <-
             arrayMap (fun name index =>
               Ok (encodeURIComponent (get o name)
                   ++ part urlParts (index + 1)))
             names 0 ;;
           Ok (join "" parts)) ;;
        let queryParameters :=
          join "&"
            (map (fun entry =>
                    encodeURIComponent (VStr (fst entry)) ++ "="
                    ++ encodeURIComponent (snd entry))
               (filter (fun entry => negb (namesHash (fst entry))) o
                ++ [("key", VStr apiKey)])%list) in
        Ok (beginning ++ path ++ "?" ++ queryParameters)
    end.

Definition bibleVersionValidator : OptionalValidationFactory :=
  validateEnumMembership availableBibles.

Definition bibleContentOptions : Validators :=
  [ ("bible", required bibleVersionValidator);
    ("passage", required (validateTypeOf "string"));
    ("format", required (validateEnumMembership
                           ["txt"; "html"; "txt.json"; "html.json"]));
    ("style", optional (validateEnumMembership contentStyles));
    ("formatting", optional (validateTypeOf "string"));
    ("redLetter", optional (validateTypeOf "boolean"));
    ("footnotes", optional (validateTypeOf "boolean"));
    ("citation", optional (validateTypeOf "boolean"));
    ("paragraphs", optional (validateTypeOf "boolean"));
    ("fullText", optional (validateTypeOf "boolean"));
    ("header", optional (validateTypeOf "string"));
    ("eachVerse", optional (validateTypeOf "string"));
    ("footer", optional (validateTypeOf "string")) ].

Definition pagingOptions : Validators :=
  [ ("start", optional (validateTypeOf "number"));
    ("limit", optional (validateTypeOf "number")) ].

Definition searchOptions : Validators :=
  ([ ("bible", required bibleVersionValidator);
     ("query", required (validateTypeOf "string"));
     ("mode", optional (validateEnumMembership ["verse"; "fuzzy"]));
     ("passages", optional (validateTypeOf "string"));
     ("preview", optional (validateEnumMembership ["none"; "text"; "html"]));
     ("sort", optional (validateEnumMembership ["relevance"; "passage"])) ]
   ++ pagingOptions)%list.

Definition specificBibleOptions : Validators :=
  [ ("bible", required bibleVersionValidator) ].

Definition findOptions : Validators :=
  ([ ("query", optional (validateTypeOf "string"));
     ("strictQuery", optional (validateTypeOf "boolean")) ]
   ++ pagingOptions)%list.

Definition parseOptions : Validators :=
  [ ("passage", required (validateTypeOf "string"));
    ("style", optional (validateEnumMembership ["short"; "medium"; "long"])) ].

Definition scanOptions : Validators :=
  [ ("text", required (validateTypeOf "string"));
    ("tagChapters", optional (validateTypeOf "boolean")) ].

Definition tagOptions : Validators :=
  [ ("text", optional (validateTypeOf "string"));
    ("url", optional (validateTypeOf "string"));
    ("tagFormat", optional (validateTypeOf "string"));
    ("tagChapters", optional (validateTypeOf "boolean")) ].

Definition compareOptions : Validators :=
  [ ("first", required (validateTypeOf "string"));
    ("second", required (validateTypeOf "string")) ].

Definition schemaOf (op : operation) : Validators :=
  match op with
  | content => bibleContentOptions
  | tableOfContents | findBible | image => specificBibleOptions
  | search => searchOptions
  | find => findOptions
  | parse => parseOptions
  | scan => scanOptions
  | tag => tagOptions
  | compare => compareOptions
  end.

(** The client of index.js: the same templates, no transformer.  Its
    [createOptionsValidator] reads as the one of lib/client.ts does, except
    that [validate] returns nothing instead of [true]. *)
Definition createBibliaApiClient (apiKey : string) (fetch : FetchMethod)
    (op : operation) : options_arg -> M string :=
  createEndpoint fetch (createOptionsValidator (schemaOf op))
    (createUrlTemplate apiKey (urlPartsOf op) (namesOf op)).

End IndexJs.

(* ================================================================== *)
(** ** The rendered URLs expected by lib/__tests__/client.ts *)
(* ================================================================== *)

Definition testOptions (row : nat) : operation * obj :=
  match row with
  | 0 => (content,
          [ ("bible", VStr "leb"); ("passage", VStr "Genesis 1:1");
            ("format", VStr "html"); ("style", VStr "fullyFormatted");
            ("formatting", VStr "abc"); ("redLetter", VBool true);
            ("footnotes", VBool true); ("citation", VBool true);
            ("paragraphs", VBool true); ("fullText", VBool true);
            ("header", VStr "header"); ("eachVerse", VStr "eachVerse");
            ("footer", VStr "footer") ])
  | 1 => (tableOfContents, [ ("bible", VStr "leb") ])
  | 2 => (search,
          [ ("bible", VStr "leb"); ("query", VStr "something");
            ("mode", VStr "fuzzy"); ("passages", VStr "Genesis 1");
            ("preview", VStr "text"); ("sort", VStr "passage");
            ("start", VNum 0); ("limit", VNum 20) ])
  | 3 => (findBible, [ ("bible", VStr "leb") ])
  | 4 => (find,
          [ ("query", VStr "hi"); ("strictQuery", VBool false);
            ("start", VNum 0); ("limit", VNum 10) ])
  | 5 => (image, [ ("bible", VStr "leb") ])
  | 6 => (parse, [ ("passage", VStr "Genesis 1:1"); ("style", VStr "long") ])
  | 7 => (scan,
          [ ("text", VStr "A sentence or two."); ("tagChapters", VBool true) ])
  | 8 => (tag,
          [ ("text", VStr "A sentence or two"); ("tagFormat", VStr "abc");
            ("tagChapters", VBool true) ])
  | 9 => (tag,
          [ ("url", VStr "https://example.com/"); ("tagFormat", VStr "abc");
            ("tagChapters", VBool true) ])
  | _ => (compare,
          [ ("first", VStr "Geneis 1:1"); ("second", VStr "Genesis 1:2") ])
  end.

Definition testExpectedUrl (row : nat) : string :=
  match row with
  | 0 => "https://api.biblia.com/v1/bible/content/leb.html?passage=Genesis%201%3A1&style=fullyFormatted&formatting=abc&redLetter=true&footnotes=true&citation=true&paragraphs=true&fullText=true&header=header&eachVerse=eachVerse&footer=footer&key=baz"
  | 1 => "https://api.biblia.com/v1/bible/contents/leb?key=baz"
  | 2 => "https://api.biblia.com/v1/bible/search/leb?query=something&mode=fuzzy&passages=Genesis%201&preview=text&sort=passage&start=0&limit=20&key=baz"
  | 3 => "https://api.biblia.com/v1/bible/find/leb?key=baz"
  | 4 => "https://api.biblia.com/v1/bible/find?query=hi&strictQuery=false&start=0&limit=10&key=baz"
  | 5 => "https://api.biblia.com/v1/bible/image/leb?key=baz"
  | 6 => "https://api.biblia.com/v1/bible/parse?passage=Genesis%201%3A1&style=long&key=baz"
  | 7 => "https://api.biblia.com/v1/bible/scan?text=A%20sentence%20or%20two.&tagChapters=true&key=baz"
  | 8 => "https://api.biblia.com/v1/bible/tag?text=A%20sentence%20or%20two&tagFormat=abc&tagChapters=true&key=baz"
  | 9 => "https://api.biblia.com/v1/bible/tag?url=https%3A%2F%2Fexample.com%2F&tagFormat=abc&tagChapters=true&key=baz"
  | _ => "https://api.biblia.com/v1/bible/compare?first=Geneis%201%3A1&second=Genesis%201%3A2&key=baz"
  end.

(* ================================================================== *)
(** ** Vocabulary of the specification *)
(* ================================================================== *)

(** The keys an options object carries, in enumeration order. *)
Definition keysOf (o : obj) : list string := map fst o.

(** The keys the schema of an operation declares. *)
Definition declaredKeys (op : operation) : list string := map fst (schemaOf op).

(** One query parameter: [percentEncode(key)=percentEncode(value)]. *)
Definition queryParameter (entry : string * value) : string :=
  encodeURIComponent (VStr (fst entry)) ++ "=" ++ encodeURIComponent (snd entry).


(** The substituted path: for the placeholder at each index, its encoded
    value followed by the next literal fragment. *)
Fixpoint pathParts (urlParts : list string) (o : obj) (names : list string)
    (index : nat) : list string :=
  match names with
  | [] => []
  | name :: rest =>
      (encodeURIComponent (get o name) ++ part urlParts (index + 1))
        :: pathParts urlParts o rest (S index)
  end.

Definition substitutedPath (urlParts : list string) (names : list string)
    (o : obj) : string :=
  join "" (pathParts urlParts o names 0).

(** The callback [renderUrl] maps over the placeholder names. *)
Definition substitute (urlParts : list string) (o : obj) (name : string)
    (index : nat) : result string :=
  let value := get o name in
  if isUndefined value
  then Throw (Error ("Parameter " ++ name ++ " is required."))
  else Ok (encodeURIComponent value ++ part urlParts (index + 1)).

(** The first placeholder, in template order, whose option is [undefined]. *)
Definition firstMissing (o : obj) (names : list string) : option string :=
  List.find (fun name => isUndefined (get o name)) names.

(** Two code units that are the same letter in possibly different case. *)
Definition sameLetter (c d : ascii) : Prop :=
  c = d
  \/ (isUpperUnit c = true /\ d = lowerUnit c)
  \/ (isUpperUnit d = true /\ c = lowerUnit d).

(** Two strings that differ at most in the case of their letters. *)
Inductive differOnlyInCase : string -> string -> Prop :=
  | case_nil : differOnlyInCase "" ""
  | case_cons (c d : ascii) (s t : string) :
      sameLetter c d -> differOnlyInCase s t ->
      differOnlyInCase (String c s) (String d t).

(** The message of a failing enum rule. *)
Definition enumMessage (optionName : string) (values : list string) : string :=
  "Option " ++ optionName ++ " must be one of " ++ join ", " values ++ ".".

(** The body-decoding call each transformer makes. *)
Definition decodeOf (t : transformer) : event :=
  match t with
  | JsonResult => CallJson
  | TextResult => CallText
  | ImageResult => CallBlob
  end.

(** The calls a computation adds to an empty log. *)
Definition callsOf {A : Type} (m : M A) : list event := fst (m []).

Definition outcomeOf {A : Type} (m : M A) : result A := snd (m []).

(** Characters by class, for the percent-encoding of URI components. *)
Definition reservedEncoded : list ascii :=
  list_ascii_of_string ":?#[]@$&+,;=/% ".

Definition marksKept : list ascii := list_ascii_of_string "!'()*".

Definition plainKept (c : ascii) : bool :=
  isAlphaUnit c || isDigitUnit c
  || existsb (Ascii.eqb c) (list_ascii_of_string "-_.~").

(** The validate functions a schema is turned into. *)
Definition validateFunctionsOf (validators : Validators)
  : list (string * Validator) :=
  map (fun entry => (fst entry, snd entry (fst entry))) validators.

(** Every key the options carry is answered by the table of validators. *)
Definition allSupported (validators : Validators) (o : obj) : bool :=
  forallb (hashTruthy (map fst validators)) (keysOf o).

(** The characters [encodeURIComponent] can produce. *)
Definition encodedUnit (c : ascii) : bool :=
  uriUnreserved c || Ascii.eqb c "%".

Definition allUnreserved (s : string) : bool :=
  forallb uriUnreserved (list_ascii_of_string s).

(** The value of a hexadecimal digit in upper case. *)
Definition hexValue (c : ascii) : option N :=
  let n := N_of_ascii c in
  if ((48 <=? n) && (n <=? 57))%N then Some (n - 48)%N
  else if ((65 <=? n) && (n <=? 70))%N then Some (n - 55)%N
  else None.

(** Reads one octet [%XY] from the front of a string. *)
Definition readOctet (s : string) : option (N * string) :=
  match s with
  | String p (String x (String y rest)) =>
      if Ascii.eqb p "%" then
        match hexValue x, hexValue y with
        | Some h, Some l => Some ((16 * h + l)%N, rest)
        | _, _ => None
        end
      else None
  | _ => None
  end.

(** Reads back the code unit at the front of an encoded string: an
    unreserved character stands for itself, one octet below 128 for that
    code, and two octets for the code point they hold in UTF-8. *)
Definition readUnit (s : string) : option (ascii * string) :=
  match s with
  | EmptyString => None
  | String c rest =>
      if uriUnreserved c then Some (c, rest)
      else
        match readOctet s with
        | Some (b, rest1) =>
            if (b <? 128)%N then Some (ascii_of_N b, rest1)
            else
              match readOctet rest1 with
              | Some (b2, rest2) =>
                  Some (ascii_of_N ((b - 192) * 64 + (b2 - 128)), rest2)
              | None => None
              end
        | None => None
        end
  end.

(** Reads back [fuel] code units; [fuel] bounds the recursion. *)
Fixpoint readUnits (fuel : nat) (s : string) : option string :=
  match s with
  | EmptyString => Some EmptyString
  | _ =>
      match fuel with
      | O => None
      | S fuel' =>
          match readUnit s with
          | Some (c, rest) =>
              match readUnits fuel' rest with
              | Some t => Some (String c t)
              | None => None
              end
          | None => None
          end
      end
  end.

(** The decoding call index.js makes for a content type, if any. *)
Definition decodeByContentType (contentType : string) : option event :=
  if String.eqb contentType "application/json" then Some CallJson
  else if String.eqb contentType "text/html" then Some CallText
  else if String.eqb contentType "text/plain" then Some CallText
  else if String.eqb contentType "image/jpeg" then Some CallBlob
  else None.

(** What the body method behind a decoding call settles to. *)
Definition bodyOf (response : Response) (e : event) : settled :=
  match e with
  | CallJson => json response
  | CallText => text response
  | _ => blob response
  end.

(** Whatever the first rule factory accepts, the second accepts. *)
Definition acceptsNoMore (f g : ValidationFactory) : Prop :=
  forall optionName v, f optionName v = Ok tt -> g optionName v = Ok tt.

(** Two schemas with the same keys in the same order, the rules of the
    second accepting whatever the rules of the first accept. *)
Definition schemaNoStricter (first second : Validators) : Prop :=
  Forall2 (fun a b => fst a = fst b /\ acceptsNoMore (snd a) (snd b))
    first second.

(** A log without the marks of transformer calls. *)
Definition withoutTransform (calls : list event) : list event :=
  filter (fun e => match e with CallTransform => false | _ => true end) calls.

(** Strings of ASCII characters only. *)
Definition asciiOnly (s : string) : bool :=
  forallb (fun c => (N_of_ascii c <? 128)%N) (list_ascii_of_string s).


(** A response with the given status and [Content-Type] header whose body
    reads [{}] as JSON, is empty as text and as a blob. *)
Definition sampleResponse (code : Z) (contentType : string) : Response :=
  {| status := code;
     headers_get := fun header =>
       if String.eqb header "Content-Type" then Some contentType else None;
     json := Fulfilled "{}";
     text := Fulfilled "";
     blob := Fulfilled "" |}.

(** A fetch that settles to the same response for every URL. *)
Definition sampleFetch (response : Response) : FetchMethod :=
  fun _ => Ok response.

(* ================================================================== *)
(** ** Properties *)
(* ================================================================== *)

(** The model reproduces every row of the URL table of the test suite: the
    options are accepted by the operation's validator and rendered to the
    expected URL. *)
Lemma test_render_url :
  forall row, (row <= 10)%nat ->
    let (op, options) := testOptions row in
    createOptionsValidator (schemaOf op) (OObject options) = Ok tt
    /\ renderUrl "baz" op (OObject options) = Ok (testExpectedUrl row).
Proof.
  intros row Hrow.
  do 11 (destruct row as [|row]; [vm_compute; split; reflexivity|]).
  lia.
Qed.

(* ------------------------------------------------------------------ *)
(** *** The endpoint factory *)

(** Every operation of the client is the endpoint factory applied to the
    operation's validator, URL template and transformer. *)
Lemma createBibliaApiClient_eq (apiKey : string) (fetch : FetchMethod)
    (op : operation) :
  createBibliaApiClient apiKey fetch op
  = createEndpoint fetch (createOptionsValidator (schemaOf op))
      (renderUrl apiKey op) (transformResponse (transformerOf op)).
Proof. destruct op; reflexivity. Qed.

Lemma status_not_200 (response : Response) :
  status response <> 200%Z -> negb (status response =? 200)%Z = true.
Proof.
  intros Hne. apply negb_true_iff. now apply Z.eqb_neq.
Qed.

(** What an endpoint does once validation and rendering have succeeded and
    the fetch has settled. *)
Lemma createEndpoint_fetched {A : Type} (fetch : FetchMethod)
    validateOptions render (transform : Response -> M A) options url response log :
  validateOptions options = Ok tt ->
  render options = Ok url ->
  fetch url = Ok response ->
  createEndpoint fetch validateOptions render transform options log
  = if negb (status response =? 200)%Z
    then ((log ++ [CallFetch url])%list, Throw (Thrown response))
    else callTransform transform response (log ++ [CallFetch url])%list.
Proof.
  intros Hvalid Hurl Hfetch.
  unfold createEndpoint, callFetch, bind, tell, lift.
  rewrite Hvalid, Hurl, Hfetch.
  destruct (negb (status response =? 200)%Z); reflexivity.
Qed.

(** C3. When the fetched response has a status other than 200, the endpoint
    rejects with that very response; the only call it has made is the fetch,
    so the response transformer was not invoked and nothing was decoded.
    This holds for the endpoint factory of lib/client.ts, for every
    operation of the client, and for the endpoint factory of index.js. *)
Theorem non_200_response_is_thrown :
  forall (A : Type) (fetch : FetchMethod)
         (validateOptions : options_arg -> result unit)
         (render : options_arg -> result string)
         (transform : Response -> M A)
         (options : options_arg) (url : string) (response : Response)
         (log : list event),
    validateOptions options = Ok tt ->
    render options = Ok url ->
    fetch url = Ok response ->
    status response <> 200%Z ->
    createEndpoint fetch validateOptions render transform options log
      = ((log ++ [CallFetch url])%list, Throw (Thrown response))
    /\ IndexJs.createEndpoint fetch validateOptions render options log
      = ((log ++ [CallFetch url])%list, Throw (Thrown response))
    /\ (forall apiKey op,
          validateOptions = createOptionsValidator (schemaOf op) ->
          render = renderUrl apiKey op ->
          createBibliaApiClient apiKey fetch op options log
            = ((log ++ [CallFetch url])%list, Throw (Thrown response))).
Proof.
  intros A fetch validateOptions render transform options url response log
    Hvalid Hurl Hfetch Hstatus.
  pose proof (status_not_200 response Hstatus) as Hneg.
  split; [|split].
  - rewrite (createEndpoint_fetched _ _ _ _ _ url response) by assumption.
    now rewrite Hneg.
  - unfold IndexJs.createEndpoint, callFetch, bind, tell, lift.
    rewrite Hvalid, Hurl, Hfetch, Hneg. reflexivity.
  - intros apiKey op Hv Hr. subst validateOptions render.
    rewrite createBibliaApiClient_eq.
    rewrite (createEndpoint_fetched _ _ _ _ _ url response) by assumption.
    now rewrite Hneg.
Qed.

(** C5. When the validator of an operation rejects the options, the call
    rejects with the validation error and the log of calls is unchanged: the
    fetch was not invoked.  The same holds of the endpoint factory with any
    validator. *)
Theorem validation_failure_precedes_fetch :
  forall (apiKey : string) (fetch : FetchMethod) (op : operation)
         (options : options_arg) (e : exn) (log : list event),
    createOptionsValidator (schemaOf op) options = Throw e ->
    createBibliaApiClient apiKey fetch op options log = (log, Throw e)
    /\ (forall (A : Type) validateOptions render (transform : Response -> M A),
          validateOptions options = Throw e ->
          createEndpoint fetch validateOptions render transform options log
            = (log, Throw e)).
Proof.
  intros apiKey fetch op options e log Hfail.
  assert (Hgen : forall (A : Type) validateOptions render
                        (transform : Response -> M A),
             validateOptions options = Throw e ->
             createEndpoint fetch validateOptions render transform options log
             = (log, Throw e)).
  { intros A validateOptions render transform Hv.
    unfold createEndpoint, bind, lift. now rewrite Hv. }
  split; [|exact Hgen].
  rewrite createBibliaApiClient_eq. now apply Hgen.
Qed.

(* ------------------------------------------------------------------ *)
(** *** Response transformers *)

Lemma transformResponse_eq (t : transformer) (response : Response) :
  transformResponse t response
  = (await _ <- lift (expectContentType response (expectedTypes t)) ;;
     await _ <- tell (decodeOf t) ;;
     lift (settle (match t with
                   | JsonResult => json response
                   | TextResult => text response
                   | ImageResult => blob response
                   end))).
Proof. destruct t; reflexivity. Qed.

(** C4. A response whose content type, cut at the first [;], is not among
    the types a transformer expects is rejected with an [Error] whose
    message ends in that content type, and the log of calls is unchanged: no
    body-decoding method was invoked.  In particular a response of type
    [image/jpeg] given to the JSON transformer is rejected citing
    [image/jpeg]. *)
Theorem unexpected_content_type_is_rejected :
  forall (t : transformer) (response : Response) (log : list event),
    includes (expectedTypes t) (contentTypeOf response) = false ->
    transformResponse t response log
      = (log, Throw (Error ("Unexpected response Content-Type: "
                            ++ contentTypeOf response)))
    /\ (forall r : Response,
          headers_get r "Content-Type" = Some "image/jpeg" ->
          expectJsonResult r log
            = (log, Throw (Error "Unexpected response Content-Type: image/jpeg"))).
Proof.
  intros t response log Hnot. split.
  - rewrite transformResponse_eq.
    unfold bind, lift, expectContentType. now rewrite Hnot.
  - intros r Hheader.
    unfold expectJsonResult, bind, lift, expectContentType, contentTypeOf.
    rewrite Hheader. reflexivity.
Qed.

(** C9. A response whose content type a transformer accepts has exactly one
    body-decoding method invoked on it: the transformer adds one call to the
    log, the decoding call of its kind, and settles to what that method
    settles to. *)
Theorem accepted_response_is_decoded_once :
  forall (t : transformer) (response : Response) (log : list event),
    includes (expectedTypes t) (contentTypeOf response) = true ->
    fst (transformResponse t response log) = (log ++ [decodeOf t])%list
    /\ callsOf (transformResponse t response) = [decodeOf t]
    /\ length (filter isDecode (callsOf (transformResponse t response))) = 1%nat.
Proof.
  intros t response log Hin.
  assert (Hlog : forall l,
             fst (transformResponse t response l) = (l ++ [decodeOf t])%list).
  { intros l. rewrite transformResponse_eq.
    unfold bind, lift, tell, expectContentType. rewrite Hin. reflexivity. }
  split; [apply Hlog|].
  unfold callsOf. rewrite Hlog. split; [reflexivity|].
  destruct t; reflexivity.
Qed.

(* ------------------------------------------------------------------ *)
(** *** Optional rules *)

Lemma isUndefined_false (v : value) : v <> VUndefined -> isUndefined v = false.
Proof. destruct v; intros Hne; try reflexivity. now elim Hne. Qed.

(** C10. An optional rule accepts [undefined] and nothing else
    unconditionally: every other value, [null] included, is handed to the
    required form of the rule.  So [null] fails the check of an optional
    string, boolean, number or enum option with the message of that rule.
    The optional wrapper of index.js delegates in the same way. *)
Theorem optional_rule_absence_is_undefined :
  forall (fn : ValidationFactory) (optionName : string),
    optional (allowOptional fn) optionName VUndefined = Ok tt
    /\ (forall v, v <> VUndefined ->
          optional (allowOptional fn) optionName v = fn optionName v)
    /\ optional validateIsString optionName VNull
         = Throw (Error ("Option " ++ optionName ++ " must be a string."))
    /\ optional validateIsBoolean optionName VNull
         = Throw (Error ("Option " ++ optionName ++ " must be a boolean."))
    /\ optional validateIsNumber optionName VNull
         = Throw (Error ("Option " ++ optionName ++ " must be a number."))
    /\ (forall values,
          optional (validateEnumMembership values) optionName VNull
            = Throw (Error (enumMessage optionName values)))
    /\ optional (IndexJs.allowOptional fn) optionName VUndefined = Ok tt
    /\ (forall v, v <> VUndefined ->
          optional (IndexJs.allowOptional fn) optionName v = fn optionName v)
    /\ optional (IndexJs.validateTypeOf "string") optionName VNull
         = Throw (Error ("Option " ++ optionName ++ " must be a string.")).
Proof.
  intros fn optionName.
  repeat split; try reflexivity.
  - intros v Hne. cbn. now rewrite isUndefined_false.
  - intros v Hne. cbn. now rewrite isUndefined_false.
Qed.

(* ------------------------------------------------------------------ *)
(** *** Strings and lookup tables *)

Lemma append_empty_r (s : string) : s ++ "" = s.
Proof. induction s as [|c s IH]; cbn; [reflexivity | now rewrite IH]. Qed.

Lemma append_assoc (s t u : string) : (s ++ t) ++ u = s ++ (t ++ u).
Proof. induction s as [|c s IH]; cbn; [reflexivity | now rewrite IH]. Qed.

Lemma join_empty_cons (x : string) (xs : list string) :
  join "" (x :: xs) = x ++ join "" xs.
Proof.
  unfold join. destruct xs as [|y ys]; cbn.
  - now rewrite append_empty_r.
  - reflexivity.
Qed.

Lemma memb_In (key : string) (keys : list string) :
  memb key keys = true <-> In key keys.
Proof.
  unfold memb. rewrite existsb_exists. split.
  - intros [x [Hin Heq]]. apply String.eqb_eq in Heq. now subst.
  - intros Hin. exists key. split; [assumption | apply String.eqb_refl].
Qed.

Lemma hashTruthy_own (ownKeys : list string) (key : string) :
  In key ownKeys -> hashTruthy ownKeys key = true.
Proof.
  intros Hin. unfold hashTruthy. apply orb_true_iff. left. now apply memb_In.
Qed.


(* ------------------------------------------------------------------ *)
(** *** Enum rules *)

Lemma lowerUnit_idem (c : ascii) : lowerUnit (lowerUnit c) = lowerUnit c.
Proof.
  destruct c as [[] [] [] [] [] [] [] []]; reflexivity.
Qed.

Lemma sameLetter_lowerUnit (c d : ascii) :
  sameLetter c d -> lowerUnit c = lowerUnit d.
Proof.
  intros [Heq | [[_ Hd] | [_ Hc]]]; subst.
  - reflexivity.
  - symmetry. apply lowerUnit_idem.
  - apply lowerUnit_idem.
Qed.

Lemma differOnlyInCase_toLowerCase (s t : string) :
  differOnlyInCase s t -> toLowerCase s = toLowerCase t.
Proof.
  induction 1 as [|c d s t Hcd _ IH]; cbn.
  - reflexivity.
  - now rewrite (sameLetter_lowerUnit c d Hcd), IH.
Qed.


(** C6. For the rule built from a list of allowed values: a string that
    differs from an allowed value only in the case of its letters passes;
    every value that is not a string fails; and whatever fails, fails with
    [Option <name> must be one of <values>.] where the allowed values appear
    as declared, in declaration order, separated by a comma and a space. *)
Theorem enum_rule_is_case_insensitive :
  forall (values : list string) (optionName : string),
    (forall s allowed,
        In allowed values -> differOnlyInCase s allowed ->
        required (validateEnumMembership values) optionName (VStr s) = Ok tt)
    /\ (forall v,
          typeof v <> "string" ->
          required (validateEnumMembership values) optionName v
            = Throw (Error ("Option " ++ optionName ++ " must be one of "
                            ++ join ", " values ++ ".")))
    /\ (forall v e,
          required (validateEnumMembership values) optionName v = Throw e ->
          e = Error ("Option " ++ optionName ++ " must be one of "
                     ++ join ", " values ++ "."))
    /\ required (validateEnumMembership ["txt"; "html"; "txt"; "html"])
         "format" (VStr "pdf")
         = Throw (Error "Option format must be one of txt, html, txt, html.").
Proof.
  intros values optionName. repeat split.
  - intros s allowed Hin Hcase. cbn.
    rewrite (differOnlyInCase_toLowerCase s allowed Hcase).
    rewrite hashTruthy_own; [reflexivity|].
    now apply in_map.
  - intros v Hty. destruct v as [| | b | n | s | c repr]; try reflexivity.
    now elim Hty.
  - intros v e Hfail. cbn in Hfail.
    destruct v as [| | b | n | s | c repr]; try (now inversion Hfail).
    destruct (negb (hashTruthy (map toLowerCase values) (toLowerCase s)));
      now inversion Hfail.
Qed.

(* ------------------------------------------------------------------ *)
(** *** Percent-encoding *)

Lemma Encode_by_unit (s : string) :
  Encode s = join "" (map encodeUnit (list_ascii_of_string s)).
Proof.
  induction s as [|c s IH]; cbn [Encode list_ascii_of_string map].
  - reflexivity.
  - now rewrite join_empty_cons, IH.
Qed.

Lemma plainKept_unreserved (c : ascii) :
  plainKept c = true -> uriUnreserved c = true.
Proof.
  destruct c as [[] [] [] [] [] [] [] []];
    vm_compute; intros H; solve [reflexivity | discriminate H].
Qed.

(** C7, as specified: the five marks [! ' ( ) *] are claimed to be encoded,
    but [encodeURIComponent] leaves them as they are, in a rendered URL
    too. *)
Lemma marks_are_not_percent_encoded :
  map encodeUnit (list_ascii_of_string "!'()*") = ["!"; "'"; "("; ")"; "*"]
  /\ encodeURIComponent (VStr "!") <> "%21"
  /\ renderUrl "baz" parse (OObject [("passage", VStr "John 3:16 (a)*!'")])
     = Ok "https://api.biblia.com/v1/bible/parse?passage=John%203%3A16%20(a)*!'&key=baz".
Proof.
  split; [reflexivity|]. split; [|reflexivity].
  vm_compute. discriminate.
Qed.

(** C7, amended.  [encodeURIComponent], which the URL renderer applies to
    everything it substitutes, works code unit by code unit; it replaces
    each of [: ? # [ ] @ $ & + , ; = / %] and the space by [%] and the two
    upper-case hexadecimal digits of its code, and leaves letters, digits,
    [- _ . ~] and the marks [! ' ( ) *] unchanged. *)
Theorem percent_encoding_of_components :
  (forall s,
      encodeURIComponent (VStr s)
      = join "" (map encodeUnit (list_ascii_of_string s)))
  /\ map encodeUnit reservedEncoded
     = [ "%3A"; "%3F"; "%23"; "%5B"; "%5D"; "%40"; "%24"; "%26"; "%2B";
         "%2C"; "%3B"; "%3D"; "%2F"; "%25"; "%20" ]
  /\ (forall c, plainKept c = true -> encodeUnit c = String c "")
  /\ map encodeUnit marksKept = ["!"; "'"; "("; ")"; "*"].
Proof.
  split; [|split; [|split]].
  - intros s. apply Encode_by_unit.
  - reflexivity.
  - intros c Hkept. unfold encodeUnit.
    now rewrite (plainKept_unreserved c Hkept).
  - reflexivity.
Qed.

(* ------------------------------------------------------------------ *)
(** *** The URL renderer *)

Section Rendering.

Variable apiKey : string.
Variable urlParts : list string.
Variable o : obj.

Lemma arrayMap_substitute_missing (names : list string) (index : nat)
    (missing : string) :
  firstMissing o names = Some missing ->
  arrayMap (substitute urlParts o) names index
  = Throw (Error ("Parameter " ++ missing ++ " is required.")).
Proof.
  revert index. induction names as [|name rest IH]; intros index Hfind.
  - discriminate Hfind.
  - unfold firstMissing in Hfind. cbn [List.find] in Hfind.
    cbn [arrayMap]. unfold substitute at 1.
    destruct (isUndefined (get o name)) eqn:Hundef.
    + inversion Hfind; subst. reflexivity.
    + cbn [bindResult]. now rewrite (IH (S index) Hfind).
Qed.

Lemma arrayMap_substitute_defined (names : list string) (index : nat) :
  (forall name, In name names -> isUndefined (get o name) = false) ->
  arrayMap (substitute urlParts o) names index = Ok (pathParts urlParts o names index).
Proof.
  revert index. induction names as [|name rest IH]; intros index Hdef.
  - reflexivity.
  - cbn [arrayMap pathParts]. unfold substitute at 1.
    rewrite (Hdef name (or_introl eq_refl)). cbn [bindResult].
    rewrite IH; [reflexivity|].
    intros n Hn. apply Hdef. now right.
Qed.

(** With every placeholder defined, the renderer returns the base
    address, the literal prefix, the substituted path, [?] and the
    parameters its own filter keeps. *)
Lemma createUrlTemplate_defined (names : list string) :
  (forall name, In name names -> isUndefined (get o name) = false) ->
  createUrlTemplate apiKey urlParts names (OObject o)
  = Ok (baseUrl ++ part urlParts 0 ++ substitutedPath urlParts names o
        ++ "?"
        ++ join "&"
             (map queryParameter
                (filter (fun entry =>
                           negb (hashTruthy names (fst entry))
                           && negb (isUndefined (snd entry))) o
                 ++ [("key", VStr apiKey)])%list)).
Proof.
  intros Hdef. unfold createUrlTemplate.
  change (arrayMap _ names 0) with (arrayMap (substitute urlParts o) names 0).
  rewrite (arrayMap_substitute_defined names 0 Hdef). cbn [bindResult].
  now rewrite append_assoc.
Qed.

Lemma createUrlTemplate_missing (names : list string) (missing : string) :
  firstMissing o names = Some missing ->
  createUrlTemplate apiKey urlParts names (OObject o)
  = Throw (Error ("Parameter " ++ missing ++ " is required.")).
Proof.
  intros Hfind. unfold createUrlTemplate.
  change (arrayMap _ names 0) with (arrayMap (substitute urlParts o) names 0).
  now rewrite (arrayMap_substitute_missing names 0 missing Hfind).
Qed.

End Rendering.

Lemma firstMissing_exists (o : obj) (names : list string) (name : string) :
  In name names -> get o name = VUndefined ->
  exists missing, firstMissing o names = Some missing.
Proof.
  intros Hin Hundef. unfold firstMissing.
  destruct (List.find (fun n => isUndefined (get o n)) names) as [m|] eqn:Hfind.
  - now exists m.
  - pose proof (find_none _ _ Hfind name Hin) as Hno. cbn in Hno.
    rewrite Hundef in Hno. discriminate Hno.
Qed.

Lemma isUndefined_true (v : value) : isUndefined v = true -> v = VUndefined.
Proof. destruct v; intros H; try discriminate H. reflexivity. Qed.

(** The renderer of index.js does not check for absent options: it
    substitutes the text [undefined]. *)
Lemma indexjs_renders_absent_placeholder :
  IndexJs.createUrlTemplate "baz" ["bible/contents/"; ""] ["bible"] (OObject [])
  = Ok "https://api.biblia.com/v1/bible/contents/undefined?key=baz".
Proof. reflexivity. Qed.

(* ------------------------------------------------------------------ *)
(** *** The options validator *)

Lemma validateFunctions_keys (validators : Validators) :
  map fst (map (fun entry => (fst entry, snd entry (fst entry))) validators)
  = map fst validators.
Proof.
  rewrite map_map. apply map_ext. intros [key factory]. reflexivity.
Qed.

Lemma runValidators_each (validateFunctions : list (string * Validator))
    (o : obj) :
  runValidators validateFunctions o = Ok tt ->
  forall key validate,
    In (key, validate) validateFunctions -> validate (get o key) = Ok tt.
Proof.
  induction validateFunctions as [|[k v] rest IH]; intros Hrun key validate Hin.
  - contradiction.
  - cbn [runValidators] in Hrun.
    destruct (v (get o k)) as [[]|e] eqn:Hv; [|discriminate Hrun].
    cbn [bindResult] in Hrun.
    destruct Hin as [Heq | Hin].
    + inversion Heq; subst. exact Hv.
    + now apply IH.
Qed.

(** An accepted options object satisfies the rule of every declared key. *)
Lemma createOptionsValidator_each (validators : Validators) (o : obj) :
  createOptionsValidator validators (OObject o) = Ok tt ->
  forall key factory,
    In (key, factory) validators -> factory key (get o key) = Ok tt.
Proof.
  unfold createOptionsValidator. intros Hok key factory Hin.
  destruct (checkSupported _ _) as [[]|e]; [|discriminate Hok].
  cbn [bindResult] in Hok.
  destruct (runValidators _ o) as [[]|e] eqn:Hrun; [|discriminate Hok].
  apply (runValidators_each _ o Hrun key (factory key)).
  apply (in_map (fun entry => (fst entry, snd entry (fst entry)))
           validators (key, factory) Hin).
Qed.

Lemma checkSupported_first (ownKeys keys : list string) (key : string) :
  List.find (fun k => negb (hashTruthy ownKeys k)) keys = Some key ->
  checkSupported ownKeys keys
  = Throw (Error ("Option " ++ key ++ " is not supported.")).
Proof.
  induction keys as [|k rest IH]; intros Hfind.
  - discriminate Hfind.
  - cbn [List.find] in Hfind. cbn [checkSupported].
    destruct (negb (hashTruthy ownKeys k)).
    + now inversion Hfind.
    + now apply IH.
Qed.

(** A missing options object is rejected by every validator. *)
Lemma missing_options_are_rejected (validators : Validators) :
  createOptionsValidator validators OUndefined
    = Throw (Error "Options is required.")
  /\ createOptionsValidator validators ONull
    = Throw (Error "Options is required.").
Proof. split; reflexivity. Qed.

(** An options object carrying a key for which the table of validators
    answers nothing is rejected, whatever its other fields are, with the
    message naming the first such key. *)
Lemma unsupported_key_is_rejected (validators : Validators) (o : obj)
    (key : string) :
  In key (keysOf o) ->
  hashTruthy (map fst validators) key = false ->
  exists first,
    In first (keysOf o)
    /\ hashTruthy (map fst validators) first = false
    /\ createOptionsValidator validators (OObject o)
       = Throw (Error ("Option " ++ first ++ " is not supported.")).
Proof.
  intros Hin Hno.
  destruct (List.find (fun k => negb (hashTruthy (map fst validators) k))
              (keysOf o)) as [first|] eqn:Hfind.
  - pose proof (find_some _ _ Hfind) as [Hfin Hfno].
    apply negb_true_iff in Hfno.
    exists first. repeat split; try assumption.
    unfold createOptionsValidator. rewrite validateFunctions_keys.
    fold (keysOf o). now rewrite (checkSupported_first _ _ first Hfind).
  - pose proof (find_none _ _ Hfind key Hin) as Habs. cbn in Habs.
    rewrite Hno in Habs. discriminate Habs.
Qed.

(** C2, at the failing input.  [toString] is not a key of any schema, yet an
    options object that carries it next to valid fields is accepted by the
    validator of every operation: the table of validators is an ordinary
    object, and [validateFunctions['toString']] reads the function inherited
    from [Object.prototype], which is truthy.  The call then goes on to the
    fetch. *)
Theorem inherited_key_is_not_rejected :
  Forall (fun row =>
            let op := fst (testOptions row) in
            let options := (snd (testOptions row) ++ [("toString", VStr "x")])%list in
            memb "toString" (declaredKeys op) = false
            /\ createOptionsValidator (schemaOf op) (OObject options) = Ok tt)
    (seq 0 11)
  /\ validateSpecificBibleOptions
       (OObject [("bible", VStr "leb"); ("toString", VStr "x")]) = Ok tt
  /\ callsOf (createBibliaApiClient "baz" (fun _ => Throw TypeError)
                tableOfContents
                (OObject [("bible", VStr "leb"); ("toString", VStr "x")]))
     = [CallFetch "https://api.biblia.com/v1/bible/contents/leb?key=baz"].
Proof.
  split; [|split; reflexivity].
  repeat constructor.
Qed.

(* ------------------------------------------------------------------ *)
(** *** Rendering validated options *)




(* ------------------------------------------------------------------ *)
(** *** The properties at concrete calls *)

(** A 404 answer to a table-of-contents call is thrown as it is, after the
    fetch and nothing else. *)
Lemma non_200_response_is_thrown_witness :
  createBibliaApiClient "baz"
    (sampleFetch (sampleResponse 404 "application/json"))
    tableOfContents (OObject [("bible", VStr "leb")]) []
  = ([CallFetch "https://api.biblia.com/v1/bible/contents/leb?key=baz"],
     Throw (Thrown (sampleResponse 404 "application/json"))).
Proof.
  exact (proj2 (proj2
           (non_200_response_is_thrown string
              (sampleFetch (sampleResponse 404 "application/json"))
              (createOptionsValidator (schemaOf tableOfContents))
              (renderUrl "baz" tableOfContents)
              (transformResponse JsonResult)
              (OObject [("bible", VStr "leb")])
              "https://api.biblia.com/v1/bible/contents/leb?key=baz"
              (sampleResponse 404 "application/json") []
              eq_refl eq_refl eq_refl
              ltac:(discriminate)))
           "baz" tableOfContents eq_refl eq_refl).
Defined.

(** A content call without a passage is rejected before any fetch. *)
Lemma validation_failure_precedes_fetch_witness :
  createOptionsValidator (schemaOf content)
    (OObject [("bible", VStr "leb"); ("format", VStr "html")])
  = Throw (Error "Option passage must be a string.")
  /\ createBibliaApiClient "baz" (sampleFetch (sampleResponse 200 "text/html"))
       content (OObject [("bible", VStr "leb"); ("format", VStr "html")]) []
     = ([], Throw (Error "Option passage must be a string.")).
Proof.
  split; [reflexivity|].
  exact (proj1 (validation_failure_precedes_fetch "baz"
                  (sampleFetch (sampleResponse 200 "text/html")) content
                  (OObject [("bible", VStr "leb"); ("format", VStr "html")])
                  (Error "Option passage must be a string.") [] eq_refl)).
Defined.

(** A JPEG answer, charset parameter or not, is not JSON. *)
Lemma unexpected_content_type_is_rejected_witness :
  transformResponse JsonResult (sampleResponse 200 "image/jpeg; q=1") []
  = ([], Throw (Error "Unexpected response Content-Type: image/jpeg")).
Proof.
  exact (proj1 (unexpected_content_type_is_rejected JsonResult
                  (sampleResponse 200 "image/jpeg; q=1") [] eq_refl)).
Defined.

(** An HTML answer with a charset is read as text, once. *)
Lemma accepted_response_is_decoded_once_witness :
  callsOf (transformResponse TextResult
             (sampleResponse 200 "text/html; charset=utf-8"))
  = [CallText].
Proof.
  exact (proj1 (proj2 (accepted_response_is_decoded_once TextResult
                         (sampleResponse 200 "text/html; charset=utf-8") []
                         eq_refl))).
Defined.

Lemma differOnlyInCase_LEB : differOnlyInCase "LeB" "leb".
Proof.
  apply case_cons; [right; left; split; reflexivity|].
  apply case_cons; [left; reflexivity|].
  apply case_cons; [right; left; split; reflexivity|].
  apply case_nil.
Qed.

(** [LeB] names the bible [leb]. *)
Lemma enum_rule_is_case_insensitive_witness :
  required bibleVersionValidator "bible" (VStr "LeB") = Ok tt.
Proof.
  exact (proj1 (enum_rule_is_case_insensitive availableBibles "bible")
           "LeB" "leb" ltac:(cbn; auto 20) differOnlyInCase_LEB).
Defined.

(* ------------------------------------------------------------------ *)
(** *** Further facts about the two variants *)

(** Whatever the response, a transformer makes at most one decoding call. *)
Lemma at_most_one_decoding_call (t : transformer) (response : Response) :
  (length (filter isDecode (callsOf (transformResponse t response))) <= 1)%nat.
Proof.
  unfold callsOf. rewrite transformResponse_eq.
  unfold bind, lift, tell, expectContentType.
  destruct (negb (includes (expectedTypes t) (contentTypeOf response)));
    destruct t; cbn; lia.
Qed.

(** In index.js the required enum rule calls [toLowerCase] on whatever it is
    given, so [null] for an optional enum option fails with a [TypeError]
    rather than with the message of the rule. *)
Lemma indexjs_optional_enum_null (values : list string) (optionName : string) :
  optional (IndexJs.validateEnumMembership values) optionName VNull
  = Throw TypeError.
Proof. reflexivity. Qed.

(** A call that passes every stage: one fetch, one transformer call, one
    decoding call. *)
Lemma successful_call_trace :
  createBibliaApiClient "baz" (sampleFetch (sampleResponse 200 "text/html"))
    content
    (OObject [ ("bible", VStr "leb"); ("passage", VStr "Genesis 1:1");
               ("format", VStr "html"); ("style", VStr "fullyFormatted") ]) []
  = ([ CallFetch "https://api.biblia.com/v1/bible/content/leb.html?passage=Genesis%201%3A1&style=fullyFormatted&key=baz";
       CallTransform; CallText ],
     Ok "").
Proof. reflexivity. Qed.

(* ================================================================== *)
(** ** Further properties of the validators *)
(* ================================================================== *)

Lemma checkSupported_Ok (ownKeys keys : list string) :
  checkSupported ownKeys keys = Ok tt
  <-> forallb (hashTruthy ownKeys) keys = true.
Proof.
  induction keys as [|k rest IH]; cbn [checkSupported forallb].
  - split; reflexivity.
  - destruct (hashTruthy ownKeys k); cbn [negb andb].
    + exact IH.
    + split; intros H; discriminate H.
Qed.

Lemma checkSupported_throws_or_passes (ownKeys keys : list string) :
  forallb (hashTruthy ownKeys) keys = true ->
  checkSupported ownKeys keys = Ok tt.
Proof. apply checkSupported_Ok. Qed.

Lemma runValidators_Ok (validateFunctions : list (string * Validator))
    (o : obj) :
  (forall key validate,
      In (key, validate) validateFunctions -> validate (get o key) = Ok tt) ->
  runValidators validateFunctions o = Ok tt.
Proof.
  induction validateFunctions as [|[k v] rest IH]; intros Hall.
  - reflexivity.
  - cbn [runValidators].
    rewrite (Hall k v (or_introl eq_refl)). cbn [bindResult].
    apply IH. intros key validate Hin. apply Hall. now right.
Qed.

Lemma runValidators_app (before after : list (string * Validator)) (o : obj) :
  runValidators before o = Ok tt ->
  runValidators (before ++ after)%list o = runValidators after o.
Proof.
  induction before as [|[k v] rest IH]; intros Hok.
  - reflexivity.
  - cbn [runValidators app] in *.
    destruct (v (get o k)) as [[]|e]; [|discriminate Hok].
    cbn [bindResult] in *. now apply IH.
Qed.

Lemma in_validateFunctionsOf (validators : Validators) (key : string)
    (validate : Validator) :
  In (key, validate) (validateFunctionsOf validators) ->
  exists factory, In (key, factory) validators /\ validate = factory key.
Proof.
  unfold validateFunctionsOf. intros Hin.
  apply in_map_iff in Hin. destruct Hin as [[k f] [Heq Hin]].
  cbn [fst snd] in Heq. inversion Heq; subst. now exists f.
Qed.

(** What the validator does on an object, stage by stage. *)
Lemma createOptionsValidator_object (validators : Validators) (o : obj) :
  createOptionsValidator validators (OObject o)
  = (checkSupported (map fst validators) (keysOf o) ;;
     runValidators (validateFunctionsOf validators) o ;;
     Ok tt).
Proof.
  unfold createOptionsValidator. fold (validateFunctionsOf validators).
  unfold validateFunctionsOf at 1. now rewrite validateFunctions_keys.
Qed.

(** X1. An options object carrying a key for which the table of validators
    has no entry, own or inherited, is rejected before any rule runs: the
    error names the first such key in the order the object enumerates its
    keys, whatever the rules of the schema are and whatever else the object
    holds. *)
Theorem first_unsupported_key_is_named :
  forall (validators : Validators) (o : obj) (key : string),
    In key (keysOf o) ->
    hashTruthy (map fst validators) key = false ->
    exists first,
      List.find (fun k => negb (hashTruthy (map fst validators) k)) (keysOf o)
        = Some first
      /\ createOptionsValidator validators (OObject o)
         = Throw (Error ("Option " ++ first ++ " is not supported.")).
Proof.
  intros validators o key Hin Hno.
  destruct (List.find (fun k => negb (hashTruthy (map fst validators) k))
              (keysOf o)) as [first|] eqn:Hfind.
  - exists first. split; [reflexivity|].
    rewrite createOptionsValidator_object.
    now rewrite (checkSupported_first _ _ first Hfind).
  - pose proof (find_none _ _ Hfind key Hin) as Habs. cbn in Habs.
    rewrite Hno in Habs. discriminate Habs.
Qed.

Lemma first_unsupported_key_is_named_witness :
  createOptionsValidator compareOptions
    (OObject [("first", VStr "Genesis 1:1"); ("third", VNum 3); ("fourth", VNull)])
  = Throw (Error "Option third is not supported.").
Proof.
  destruct (first_unsupported_key_is_named compareOptions
              [("first", VStr "Genesis 1:1"); ("third", VNum 3); ("fourth", VNull)]
              "fourth" ltac:(right; right; left; reflexivity) eq_refl)
    as [first [Hfind Hthrow]].
  cbn in Hfind. inversion Hfind; subst first. exact Hthrow.
Defined.

(** X2. The validator accepts an options object exactly when the table of
    validators answers for every key of the object and the rule of every
    declared key accepts what the object holds under that key (the value
    [undefined] for a key it does not hold). *)
Theorem validator_accepts_iff :
  forall (validators : Validators) (o : obj),
    createOptionsValidator validators (OObject o) = Ok tt
    <-> (allSupported validators o = true
         /\ forall key factory,
              In (key, factory) validators ->
              factory key (get o key) = Ok tt).
Proof.
  intros validators o. split.
  - intros Hok. split.
    + rewrite createOptionsValidator_object in Hok.
      destruct (checkSupported (map fst validators) (keysOf o))
        as [[]|e] eqn:Hsup; [|discriminate Hok].
      now apply checkSupported_Ok.
    + now apply createOptionsValidator_each.
  - intros [Hsup Hrules].
    rewrite createOptionsValidator_object.
    rewrite (checkSupported_throws_or_passes _ _ Hsup). cbn [bindResult].
    rewrite runValidators_Ok; [reflexivity|].
    intros key validate Hin.
    destruct (in_validateFunctionsOf _ _ _ Hin) as [factory [Hf ->]].
    now apply Hrules.
Qed.

(** X3. Rules run in the order the schema declares them and the first one
    that throws decides the error: when every key of the object is answered
    for, the rules declared before a key pass and the rule of that key
    throws, the validator throws that error, whatever the later rules would
    say. *)
Theorem first_failing_rule_wins :
  forall (before after : Validators) (key : string)
         (factory : ValidationFactory) (o : obj) (e : exn),
    allSupported (before ++ (key, factory) :: after)%list o = true ->
    (forall k f, In (k, f) before -> f k (get o k) = Ok tt) ->
    factory key (get o key) = Throw e ->
    createOptionsValidator (before ++ (key, factory) :: after)%list (OObject o)
    = Throw e.
Proof.
  intros before after key factory o e Hsup Hbefore Hfail.
  rewrite createOptionsValidator_object.
  rewrite (checkSupported_throws_or_passes _ _ Hsup). cbn [bindResult].
  unfold validateFunctionsOf. rewrite map_app. cbn [map fst snd].
  rewrite runValidators_app.
  - cbn [runValidators]. now rewrite Hfail.
  - apply runValidators_Ok. intros k validate Hin.
    destruct (in_validateFunctionsOf before _ _ Hin) as [f [Hf ->]].
    now apply Hbefore.
Qed.

(** Without a passage and with a wrong format, it is the passage, declared
    first, that is reported. *)
Lemma first_failing_rule_wins_witness :
  createOptionsValidator bibleContentOptions
    (OObject [("format", VStr "pdf"); ("bible", VStr "leb")])
  = Throw (Error "Option passage must be a string.").
Proof.
  refine (first_failing_rule_wins
            [("bible", required bibleVersionValidator)]
            (tl (tl bibleContentOptions))
            "passage" (required validateIsString)
            [("format", VStr "pdf"); ("bible", VStr "leb")]
            (Error "Option passage must be a string.")
            eq_refl _ eq_refl).
  intros k f [Heq | []]. inversion Heq; subst. reflexivity.
Defined.

(* ------------------------------------------------------------------ *)
(** *** What an enum rule accepts *)

Lemma lowerUnit_not_upper (c : ascii) : isUpperUnit (lowerUnit c) = false.
Proof.
  destruct c as [[] [] [] [] [] [] [] []]; reflexivity.
Qed.

Lemma toLowerCase_no_upper (s : string) :
  existsb isUpperUnit (list_ascii_of_string (toLowerCase s)) = false.
Proof.
  induction s as [|c s IH]; cbn [toLowerCase list_ascii_of_string existsb].
  - reflexivity.
  - now rewrite lowerUnit_not_upper, IH.
Qed.

(** Of the names [Object.prototype] defines, only [constructor] and
    [__proto__] are in lower case, so only they can be hit by a lower-cased
    string. *)
Lemma lowered_inherited_name (s : string) :
  memb (toLowerCase s) (map fst objectPrototype) = true
  <-> (toLowerCase s = "constructor" \/ toLowerCase s = "__proto__").
Proof.
  split.
  - intros Hmem. apply memb_In in Hmem.
    pose proof (toLowerCase_no_upper s) as Hlow.
    cbn [map fst objectPrototype] in Hmem.
    repeat (destruct Hmem as [Heq | Hmem];
            [ rewrite <- Heq in Hlow;
              first [ now left | now right | discriminate Hlow ] | ]).
    contradiction.
  - intros [-> | ->]; reflexivity.
Qed.

(** X4. An enum rule accepts exactly the strings whose lower-case form is
    the lower-case form of an allowed value, and besides them the strings
    that read [constructor] or [__proto__] in lower case: the table of
    allowed values is an ordinary object and answers for those two names of
    [Object.prototype] as well.  Nothing that is not a string is accepted. *)
Theorem enum_rule_accepts_iff :
  forall (values : list string) (optionName : string) (v : value),
    required (validateEnumMembership values) optionName v = Ok tt
    <-> exists s,
          v = VStr s
          /\ (In (toLowerCase s) (map toLowerCase values)
              \/ toLowerCase s = "constructor"
              \/ toLowerCase s = "__proto__").
Proof.
  intros values optionName v. split.
  - intros Hok.
    destruct v as [| | b | n | s | c repr]; try discriminate Hok.
    exists s. split; [reflexivity|].
    cbn in Hok.
    destruct (hashTruthy (map toLowerCase values) (toLowerCase s)) eqn:Hhash;
      [|discriminate Hok].
    unfold hashTruthy in Hhash. apply orb_true_iff in Hhash.
    destruct Hhash as [Hown | Hinh].
    + left. now apply memb_In.
    + right. now apply lowered_inherited_name.
  - intros [s [-> Hcases]]. cbn.
    assert (Hhash : hashTruthy (map toLowerCase values) (toLowerCase s) = true).
    { unfold hashTruthy. apply orb_true_iff.
      destruct Hcases as [Hown | Hinh].
      - left. now apply memb_In.
      - right. now apply lowered_inherited_name. }
    now rewrite Hhash.
Qed.

(* ================================================================== *)
(** ** Further properties of an endpoint call *)
(* ================================================================== *)

Lemma transformResponse_cases (t : transformer) (response : Response)
    (log : list event) :
  transformResponse t response log
  = if includes (expectedTypes t) (contentTypeOf response)
    then ((log ++ [decodeOf t])%list, settle (bodyOf response (decodeOf t)))
    else (log, Throw (Error ("Unexpected response Content-Type: "
                             ++ contentTypeOf response))).
Proof.
  rewrite transformResponse_eq.
  unfold bind, lift, tell, expectContentType.
  destruct (includes (expectedTypes t) (contentTypeOf response));
    destruct t; reflexivity.
Qed.

(** A call of an operation, stage by stage: each stage either ends the call
    with its error or hands over to the next one. *)
Lemma createBibliaApiClient_cases (apiKey : string) (fetch : FetchMethod)
    (op : operation) (options : options_arg) (log : list event) :
  createBibliaApiClient apiKey fetch op options log
  = match createOptionsValidator (schemaOf op) options with
    | Throw e => (log, Throw e)
    | Ok _ =>
        match renderUrl apiKey op options with
        | Throw e => (log, Throw e)
        | Ok url =>
            match fetch url with
            | Throw e => ((log ++ [CallFetch url])%list, Throw e)
            | Ok response =>
                if negb (status response =? 200)%Z
                then ((log ++ [CallFetch url])%list, Throw (Thrown response))
                else if includes (expectedTypes (transformerOf op))
                          (contentTypeOf response)
                then ((log ++ [CallFetch url; CallTransform;
                               decodeOf (transformerOf op)])%list,
                      settle (bodyOf response (decodeOf (transformerOf op))))
                else ((log ++ [CallFetch url; CallTransform])%list,
                      Throw (Error ("Unexpected response Content-Type: "
                                    ++ contentTypeOf response)))
            end
        end
    end.
Proof.
  rewrite createBibliaApiClient_eq.
  unfold createEndpoint, callFetch, callTransform, bind, tell, lift.
  destruct (createOptionsValidator (schemaOf op) options) as [[]|e];
    [|reflexivity].
  destruct (renderUrl apiKey op options) as [url|e]; [|reflexivity].
  destruct (fetch url) as [response|e]; [|reflexivity].
  destruct (negb (status response =? 200)%Z); [reflexivity|].
  rewrite transformResponse_cases.
  destruct (includes (expectedTypes (transformerOf op)) (contentTypeOf response));
    now rewrite <- !app_assoc.
Qed.

(** X5. The calls of any endpoint invocation, whatever the options, the
    fetch and the response, are an initial part of: one fetch, one call of
    the transformer, one decoding call.  So no invocation fetches twice or
    decodes twice, and nothing is decoded before the fetch.  An invocation
    that returns a value has made all three calls. *)
Theorem endpoint_call_discipline :
  forall (apiKey : string) (fetch : FetchMethod) (op : operation)
         (options : options_arg),
    (callsOf (createBibliaApiClient apiKey fetch op options) = []
     \/ exists url,
          renderUrl apiKey op options = Ok url
          /\ exists rest,
               (callsOf (createBibliaApiClient apiKey fetch op options) ++ rest
                = [CallFetch url; CallTransform; decodeOf (transformerOf op)])%list)
    /\ (forall payload,
          outcomeOf (createBibliaApiClient apiKey fetch op options) = Ok payload ->
          exists url,
            callsOf (createBibliaApiClient apiKey fetch op options)
            = [CallFetch url; CallTransform; decodeOf (transformerOf op)]).
Proof.
  intros apiKey fetch op options.
  unfold callsOf, outcomeOf. rewrite createBibliaApiClient_cases.
  destruct (createOptionsValidator (schemaOf op) options) as [[]|e].
  2:{ split; [now left | intros payload H; discriminate H]. }
  destruct (renderUrl apiKey op options) as [url|e].
  2:{ split; [now left | intros payload H; discriminate H]. }
  destruct (fetch url) as [response|e].
  2:{ split; [|intros payload H; discriminate H].
      right. exists url. split; [reflexivity|]. eexists. reflexivity. }
  destruct (negb (status response =? 200)%Z).
  { split; [|intros payload H; discriminate H].
    right. exists url. split; [reflexivity|]. eexists. reflexivity. }
  destruct (includes (expectedTypes (transformerOf op)) (contentTypeOf response)).
  - split.
    + right. exists url. split; [reflexivity|]. exists []. reflexivity.
    + intros payload _. now exists url.
  - split; [|intros payload H; discriminate H].
    right. exists url. split; [reflexivity|]. eexists. reflexivity.
Qed.

(** X6. The success path of an operation: options accepted, URL rendered,
    fetch settled to a response of status 200 whose content type the
    operation's transformer expects.  The call fetches that URL, calls the
    transformer, makes the one decoding call of the operation, and settles
    to whatever that body method settles to, a rejection included. *)
Theorem successful_call_decodes_body :
  forall (apiKey : string) (fetch : FetchMethod) (op : operation)
         (options : options_arg) (url : string) (response : Response)
         (log : list event),
    createOptionsValidator (schemaOf op) options = Ok tt ->
    renderUrl apiKey op options = Ok url ->
    fetch url = Ok response ->
    status response = 200%Z ->
    includes (expectedTypes (transformerOf op)) (contentTypeOf response) = true ->
    createBibliaApiClient apiKey fetch op options log
    = ((log ++ [CallFetch url; CallTransform; decodeOf (transformerOf op)])%list,
       settle (bodyOf response (decodeOf (transformerOf op)))).
Proof.
  intros apiKey fetch op options url response log Hvalid Hurl Hfetch Hstatus Hct.
  rewrite createBibliaApiClient_cases, Hvalid, Hurl, Hfetch, Hstatus, Hct.
  reflexivity.
Qed.

Lemma successful_call_decodes_body_witness :
  createBibliaApiClient "baz"
    (sampleFetch (sampleResponse 200 "image/jpeg")) image
    (OObject [("bible", VStr "kjv")]) []
  = ([CallFetch "https://api.biblia.com/v1/bible/image/kjv?key=baz";
      CallTransform; CallBlob],
     Ok "").
Proof.
  exact (successful_call_decodes_body "baz"
           (sampleFetch (sampleResponse 200 "image/jpeg")) image
           (OObject [("bible", VStr "kjv")])
           "https://api.biblia.com/v1/bible/image/kjv?key=baz"
           (sampleResponse 200 "image/jpeg") []
           eq_refl eq_refl eq_refl eq_refl eq_refl).
Defined.

(** X7. When the fetch itself rejects, the call rejects with the same error
    after that one fetch: the error is neither wrapped nor retried, and the
    transformer is not called. *)
Theorem fetch_rejection_propagates :
  forall (apiKey : string) (fetch : FetchMethod) (op : operation)
         (options : options_arg) (url : string) (e : exn) (log : list event),
    createOptionsValidator (schemaOf op) options = Ok tt ->
    renderUrl apiKey op options = Ok url ->
    fetch url = Throw e ->
    createBibliaApiClient apiKey fetch op options log
    = ((log ++ [CallFetch url])%list, Throw e).
Proof.
  intros apiKey fetch op options url e log Hvalid Hurl Hfetch.
  now rewrite createBibliaApiClient_cases, Hvalid, Hurl, Hfetch.
Qed.

Lemma fetch_rejection_propagates_witness :
  createBibliaApiClient "baz" (fun _ => Throw (Error "network down")) find
    (OObject []) []
  = ([CallFetch "https://api.biblia.com/v1/bible/find?key=baz"],
     Throw (Error "network down")).
Proof.
  exact (fetch_rejection_propagates "baz"
           (fun _ => Throw (Error "network down")) find (OObject [])
           "https://api.biblia.com/v1/bible/find?key=baz"
           (Error "network down") [] eq_refl eq_refl eq_refl).
Defined.

(* ================================================================== *)
(** ** Further properties of the URL renderer *)
(* ================================================================== *)

Lemma join_snoc (sep : string) (xs : list string) (x : string) :
  join sep (xs ++ [x])%list
  = String.concat "" (map (fun y => y ++ sep) xs) ++ x.
Proof.
  unfold join. induction xs as [|a rest IH].
  - reflexivity.
  - change (String.concat "" (map (fun y => y ++ sep) (a :: rest)))
      with (join "" ((a ++ sep) :: map (fun y => y ++ sep) rest)).
    rewrite join_empty_cons. unfold join.
    rewrite append_assoc, append_assoc, <- IH.
    destruct rest; reflexivity.
Qed.

Lemma rendered_placeholders_defined (apiKey : string)
    (urlParts names : list string) (o : obj) (url : string) :
  createUrlTemplate apiKey urlParts names (OObject o) = Ok url ->
  forall name, In name names -> isUndefined (get o name) = false.
Proof.
  intros Hok name Hin.
  destruct (firstMissing o names) as [missing|] eqn:Hfind.
  - rewrite (createUrlTemplate_missing apiKey urlParts o names missing Hfind)
      in Hok. discriminate Hok.
  - exact (find_none _ _ Hfind name Hin).
Qed.

(** X9. A rendered URL, for any template: the renderer returns one only for
    an options object with every placeholder defined, and the URL is the
    base address, the first literal, the substituted path, [?], then each
    kept option as [key=value&], and last [key=] with the encoded API key.
    The API key is the final parameter even when the options hold a key
    named [key] themselves. *)
Theorem rendered_url_ends_with_api_key :
  forall (apiKey : string) (urlParts names : list string)
         (options : options_arg) (url : string),
    createUrlTemplate apiKey urlParts names options = Ok url ->
    exists o,
      options = OObject o
      /\ (forall name, In name names -> get o name <> VUndefined)
      /\ url = baseUrl ++ part urlParts 0
               ++ substitutedPath urlParts names o ++ "?"
               ++ String.concat ""
                    (map (fun entry => queryParameter entry ++ "&")
                       (filter (fun entry =>
                                  negb (hashTruthy names (fst entry))
                                  && negb (isUndefined (snd entry))) o))
               ++ "key=" ++ Encode apiKey.
Proof.
  intros apiKey urlParts names options url Hok.
  destruct options as [| |o]; try discriminate Hok.
  exists o. split; [reflexivity|].
  pose proof (rendered_placeholders_defined _ _ _ _ _ Hok) as Hdef.
  split.
  - intros name Hin Hundef. specialize (Hdef name Hin).
    rewrite Hundef in Hdef. discriminate Hdef.
  - rewrite (createUrlTemplate_defined apiKey urlParts o names Hdef) in Hok.
    injection Hok as <-.
    rewrite map_app. cbn [map]. rewrite join_snoc, map_map.
    reflexivity.
Qed.

Lemma rendered_url_ends_with_api_key_witness :
  exists o,
    OObject [("key", VStr "mine"); ("query", VStr "a&b")] = OObject o
    /\ (forall name, In name [] -> get o name <> VUndefined)
    /\ "https://api.biblia.com/v1/bible/find?key=mine&query=a%26b&key=s%20k"
       = baseUrl ++ part ["bible/find"] 0
         ++ substitutedPath ["bible/find"] [] o ++ "?"
         ++ String.concat ""
              (map (fun entry => queryParameter entry ++ "&")
                 (filter (fun entry =>
                            negb (hashTruthy [] (fst entry))
                            && negb (isUndefined (snd entry))) o))
         ++ "key=" ++ Encode "s k".
Proof.
  exact (rendered_url_ends_with_api_key "s k" ["bible/find"] []
           (OObject [("key", VStr "mine"); ("query", VStr "a&b")])
           "https://api.biblia.com/v1/bible/find?key=mine&query=a%26b&key=s%20k"
           eq_refl).
Defined.

Lemma getOwn_skip {A : Type} (o1 o2 : list (string * A)) (key name : string)
    (v : A) :
  name <> key ->
  getOwn (o1 ++ (key, v) :: o2)%list name = getOwn (o1 ++ o2)%list name.
Proof.
  intros Hne. induction o1 as [|[k w] rest IH]; cbn [getOwn app].
  - destruct (String.eqb_spec key name) as [Heq|_]; [|reflexivity].
    now elim Hne.
  - now rewrite IH.
Qed.

Lemma arrayMap_ext {A B : Type} (f g : A -> nat -> result B) (xs : list A)
    (index : nat) :
  (forall x i, In x xs -> f x i = g x i) ->
  arrayMap f xs index = arrayMap g xs index.
Proof.
  revert index. induction xs as [|x rest IH]; intros index Hext.
  - reflexivity.
  - cbn [arrayMap]. rewrite (Hext x index (or_introl eq_refl)).
    rewrite (IH (S index)); [reflexivity|].
    intros y i Hin. apply Hext. now right.
Qed.

(** X10. An option that is present with the value [undefined] and is not a
    placeholder of the template renders as if it were not there: the URL,
    or the error, is the one of the object without that entry. *)
Theorem undefined_option_renders_as_omitted :
  forall (apiKey : string) (urlParts names : list string) (o1 o2 : obj)
         (key : string),
    ~ In key names ->
    createUrlTemplate apiKey urlParts names
      (OObject (o1 ++ (key, VUndefined) :: o2)%list)
    = createUrlTemplate apiKey urlParts names (OObject (o1 ++ o2)%list).
Proof.
  intros apiKey urlParts names o1 o2 key Hnot.
  unfold createUrlTemplate.
  rewrite (arrayMap_ext _
             (fun name index =>
                let value := get (o1 ++ o2)%list name in
                if isUndefined value
                then Throw (Error ("Parameter " ++ name ++ " is required."))
                else Ok (encodeURIComponent value ++ part urlParts (index + 1)))).
  - rewrite !filter_app. cbn [filter fst snd isUndefined negb].
    rewrite andb_false_r. reflexivity.
  - intros name i Hin. cbn zeta. unfold get.
    rewrite getOwn_skip; [reflexivity|].
    intros ->. contradiction.
Qed.

Lemma undefined_option_renders_as_omitted_witness :
  createUrlTemplate "baz" ["bible/parse"] []
    (OObject [("passage", VStr "John 3"); ("style", VUndefined)])
  = createUrlTemplate "baz" ["bible/parse"] []
      (OObject [("passage", VStr "John 3")]).
Proof.
  exact (undefined_option_renders_as_omitted "baz" ["bible/parse"] []
           [("passage", VStr "John 3")] [] "style" (fun H => H)).
Defined.

(* ------------------------------------------------------------------ *)
(** *** What percent-encoding does to a component *)

Lemma chars_append (s t : string) :
  list_ascii_of_string (s ++ t)
  = (list_ascii_of_string s ++ list_ascii_of_string t)%list.
Proof.
  induction s as [|c s IH]; cbn; [reflexivity | now rewrite IH].
Qed.

Lemma length_append (s t : string) :
  String.length (s ++ t) = (String.length s + String.length t)%nat.
Proof.
  induction s as [|c s IH]; cbn; [reflexivity | now rewrite IH].
Qed.

Lemma Encode_append (s t : string) : Encode (s ++ t) = Encode s ++ Encode t.
Proof.
  induction s as [|c s IH]; cbn [Encode append].
  - reflexivity.
  - now rewrite IH, append_assoc.
Qed.

Lemma encodeUnit_alphabet (c : ascii) :
  forallb encodedUnit (list_ascii_of_string (encodeUnit c)) = true.
Proof.
  destruct c as [[] [] [] [] [] [] [] []]; reflexivity.
Qed.

Lemma Encode_alphabet (s : string) :
  forallb encodedUnit (list_ascii_of_string (Encode s)) = true.
Proof.
  induction s as [|c s IH]; cbn [Encode].
  - reflexivity.
  - now rewrite chars_append, forallb_app, encodeUnit_alphabet, IH.
Qed.

(** X11. Whatever value is substituted, its encoding consists of letters,
    digits, the marks [- _ . ! ~ * ' ( )] and [%] only.  None of the
    characters that structure a URL ([/ ? # & = + : ; , @ $], brackets, the
    space) can come out of an option value, an option key or the API key, so
    a value cannot add a path segment or a query parameter. *)
Theorem encoded_component_has_no_delimiter :
  forall (v : value),
    forallb encodedUnit (list_ascii_of_string (encodeURIComponent v)) = true
    /\ forall c,
         In c (list_ascii_of_string "/?#&=+:;,@$[] ") ->
         ~ In c (list_ascii_of_string (encodeURIComponent v)).
Proof.
  intros v. pose proof (Encode_alphabet (ToString v)) as Hall.
  split; [exact Hall|].
  intros c Hdelim Hin.
  rewrite forallb_forall in Hall. specialize (Hall c Hin).
  cbn in Hdelim.
  repeat (destruct Hdelim as [<- | Hdelim]; [discriminate Hall|]).
  contradiction.
Qed.

Lemma encodeUnit_length (c : ascii) :
  if uriUnreserved c
  then encodeUnit c = String c ""
  else (3 <= String.length (encodeUnit c) <= 6)%nat.
Proof.
  destruct c as [[] [] [] [] [] [] [] []]; vm_compute;
    solve [reflexivity | split; repeat constructor].
Qed.

Lemma Encode_length (s : string) :
  (String.length s <= String.length (Encode s) <= 6 * String.length s)%nat.
Proof.
  induction s as [|c s IH]; cbn [Encode String.length].
  - split; lia.
  - rewrite length_append.
    pose proof (encodeUnit_length c) as Hc.
    destruct (uriUnreserved c).
    + rewrite Hc. cbn [String.length]. lia.
    + lia.
Qed.

(* ------------------------------------------------------------------ *)
(** *** Reading an encoded component back *)

Lemma readUnit_encodeUnit (c : ascii) (rest : string) :
  readUnit (encodeUnit c ++ rest) = Some (c, rest).
Proof.
  destruct c as [[] [] [] [] [] [] [] []]; reflexivity.
Qed.

Lemma encodeUnit_nonempty (c : ascii) :
  exists d tail, encodeUnit c = String d tail.
Proof.
  destruct c as [[] [] [] [] [] [] [] []]; eexists; eexists; reflexivity.
Qed.

Lemma readUnits_Encode (s : string) :
  readUnits (String.length s) (Encode s) = Some s.
Proof.
  induction s as [|c s IH]; cbn [Encode String.length].
  - reflexivity.
  - destruct (encodeUnit_nonempty c) as [d [tail Hd]].
    pose proof (readUnit_encodeUnit c (Encode s)) as Hread.
    rewrite Hd in *. cbn [append] in *. cbn [readUnits].
    now rewrite Hread, IH.
Qed.

Lemma Encode_empty (s : string) : Encode s = "" -> s = "".
Proof.
  destruct s as [|c s]; [reflexivity|].
  cbn [Encode]. destruct (encodeUnit_nonempty c) as [d [tail ->]].
  intros H. discriminate H.
Qed.

Lemma Encode_injective (s t : string) : Encode s = Encode t -> s = t.
Proof.
  revert t. induction s as [|c s IH]; intros t Heq.
  - symmetry. apply Encode_empty. now rewrite <- Heq.
  - destruct t as [|d t].
    + apply Encode_empty in Heq. discriminate Heq.
    + cbn [Encode] in Heq.
      pose proof (readUnit_encodeUnit c (Encode s)) as Hc.
      pose proof (readUnit_encodeUnit d (Encode t)) as Hd.
      rewrite Heq, Hd in Hc. injection Hc as -> Hrest.
      f_equal. apply IH. now symmetry.
Qed.

(** X13. Percent-encoding loses nothing: reading an encoded component unit
    by unit gives the component back, so two different strings never encode
    to the same text, and two options with different string values never
    render to the same query parameter. *)
Theorem encoding_round_trip :
  (forall s, readUnits (String.length s) (Encode s) = Some s)
  /\ (forall s t, Encode s = Encode t -> s = t)
  /\ (forall key s t,
        queryParameter (key, VStr s) = queryParameter (key, VStr t) -> s = t).
Proof.
  split; [exact readUnits_Encode|]. split; [exact Encode_injective|].
  intros key s t Heq. unfold queryParameter, encodeURIComponent in Heq.
  cbn [fst snd ToString] in Heq.
  apply Encode_injective.
  assert (Hlen : forall a b c : string, a ++ b = a ++ c -> b = c).
  { induction a as [|x a IHa]; cbn; intros b c H; [exact H|].
    injection H as H. now apply IHa. }
  apply Hlen in Heq. now apply (Hlen "=") in Heq.
Qed.

(* ================================================================== *)
(** ** Further properties of the response transformers *)
(* ================================================================== *)

Lemma splitFirst_parameters (mediaType parameters : string) :
  existsb (Ascii.eqb ";") (list_ascii_of_string mediaType) = false ->
  splitFirst (mediaType ++ ";" ++ parameters) = mediaType.
Proof.
  induction mediaType as [|c m IH];
    cbn [list_ascii_of_string existsb append splitFirst]; intros Hno.
  - now rewrite Ascii.eqb_refl.
  - apply orb_false_iff in Hno. destruct Hno as [Hc Hm].
    rewrite Ascii.eqb_sym, Hc. f_equal. now apply IH.
Qed.

(** X14. Parameters of the [Content-Type] header do not matter: for a
    header [<type>;<anything>], a transformer behaves as it does for the
    bare type; it decodes when the type is one it expects and otherwise
    rejects citing the type without its parameters. *)
Theorem content_type_parameters_are_ignored :
  forall (t : transformer) (response : Response)
         (mediaType parameters : string) (log : list event),
    headers_get response "Content-Type"
      = Some (mediaType ++ ";" ++ parameters) ->
    existsb (Ascii.eqb ";") (list_ascii_of_string mediaType) = false ->
    contentTypeOf response = mediaType
    /\ transformResponse t response log
       = if includes (expectedTypes t) mediaType
         then ((log ++ [decodeOf t])%list,
               settle (bodyOf response (decodeOf t)))
         else (log, Throw (Error ("Unexpected response Content-Type: "
                                  ++ mediaType))).
Proof.
  intros t response mediaType parameters log Hheader Hno.
  assert (Hct : contentTypeOf response = mediaType).
  { unfold contentTypeOf. rewrite Hheader. cbn [orEmpty].
    now apply splitFirst_parameters. }
  split; [exact Hct|].
  now rewrite transformResponse_cases, Hct.
Qed.

Lemma content_type_parameters_are_ignored_witness :
  transformResponse JsonResult
    (sampleResponse 200 "application/json; charset=utf-8") []
  = ([CallJson], Ok "{}").
Proof.
  exact (proj2 (content_type_parameters_are_ignored JsonResult
                  (sampleResponse 200 "application/json; charset=utf-8")
                  "application/json" " charset=utf-8" []
                  eq_refl eq_refl)).
Defined.

(** X15. A response without a [Content-Type] header is rejected by every
    transformer, with a message that cites the empty type, and its body is
    not read. *)
Theorem missing_content_type_is_rejected :
  forall (t : transformer) (response : Response) (log : list event),
    headers_get response "Content-Type" = None ->
    transformResponse t response log
    = (log, Throw (Error "Unexpected response Content-Type: ")).
Proof.
  intros t response log Hheader.
  rewrite transformResponse_cases. unfold contentTypeOf.
  rewrite Hheader. destruct t; reflexivity.
Qed.

Lemma missing_content_type_is_rejected_witness :
  transformResponse ImageResult
    {| status := 200; headers_get := fun _ => None;
       json := Rejected "no body"; text := Rejected "no body";
       blob := Fulfilled "bytes" |} []
  = ([], Throw (Error "Unexpected response Content-Type: ")).
Proof.
  exact (missing_content_type_is_rejected ImageResult
           {| status := 200; headers_get := fun _ => None;
              json := Rejected "no body"; text := Rejected "no body";
              blob := Fulfilled "bytes" |} [] eq_refl).
Defined.

(* ================================================================== *)
(** ** index.js against lib/client.ts *)
(* ================================================================== *)

Lemma indexjs_createEndpoint_cases (fetch : FetchMethod)
    validateOptions render (options : options_arg) (log : list event) :
  IndexJs.createEndpoint fetch validateOptions render options log
  = match validateOptions options with
    | Throw e => (log, Throw e)
    | Ok _ =>
        match render options with
        | Throw e => (log, Throw e)
        | Ok url =>
            match fetch url with
            | Throw e => ((log ++ [CallFetch url])%list, Throw e)
            | Ok response =>
                if negb (status response =? 200)%Z
                then ((log ++ [CallFetch url])%list, Throw (Thrown response))
                else
                  match decodeByContentType (contentTypeOf response) with
                  | Some e =>
                      ((log ++ [CallFetch url; e])%list,
                       settle (bodyOf response e))
                  | None =>
                      ((log ++ [CallFetch url])%list,
                       Throw (Error ("Unexpected response Content-Type: "
                                     ++ contentTypeOf response)))
                  end
            end
        end
    end.
Proof.
  unfold IndexJs.createEndpoint, callFetch, callJson, callText, callBlob,
    decodeByContentType, bind, tell, lift.
  destruct (validateOptions options) as [[]|e]; [|reflexivity].
  destruct (render options) as [url|e]; [|reflexivity].
  destruct (fetch url) as [response|e]; [|reflexivity].
  destruct (negb (status response =? 200)%Z); [reflexivity|].
  repeat (match goal with
          | |- context [String.eqb ?a ?b] => destruct (String.eqb a b)
          end; [now rewrite <- app_assoc|]).
  reflexivity.
Qed.

(** X16. The endpoint of index.js chooses the body method by the content
    type of the response, not by the operation: after a fetch that settles
    to status 200 it reads JSON for [application/json], text for
    [text/html] and [text/plain], a blob for [image/jpeg], each with one
    decoding call, and for any other type rejects citing the type without
    reading the body. *)
Theorem indexjs_decodes_by_content_type :
  forall (fetch : FetchMethod) validateOptions render
         (options : options_arg) (url : string) (response : Response)
         (log : list event),
    validateOptions options = Ok tt ->
    render options = Ok url ->
    fetch url = Ok response ->
    status response = 200%Z ->
    IndexJs.createEndpoint fetch validateOptions render options log
    = match decodeByContentType (contentTypeOf response) with
      | Some e => ((log ++ [CallFetch url; e])%list, settle (bodyOf response e))
      | None =>
          ((log ++ [CallFetch url])%list,
           Throw (Error ("Unexpected response Content-Type: "
                         ++ contentTypeOf response)))
      end.
Proof.
  intros fetch validateOptions render options url response log
    Hvalid Hurl Hfetch Hstatus.
  now rewrite indexjs_createEndpoint_cases, Hvalid, Hurl, Hfetch, Hstatus.
Qed.

(** index.js hands a JPEG answer to a table-of-contents call back as a
    blob, where lib/client.ts rejects it. *)
Lemma indexjs_decodes_by_content_type_witness :
  IndexJs.createBibliaApiClient "baz"
    (sampleFetch (sampleResponse 200 "image/jpeg")) tableOfContents
    (OObject [("bible", VStr "leb")]) []
  = ([CallFetch "https://api.biblia.com/v1/bible/contents/leb?key=baz"; CallBlob],
     Ok "").
Proof.
  exact (indexjs_decodes_by_content_type
           (sampleFetch (sampleResponse 200 "image/jpeg"))
           (createOptionsValidator (IndexJs.schemaOf tableOfContents))
           (IndexJs.createUrlTemplate "baz" (urlPartsOf tableOfContents)
              (namesOf tableOfContents))
           (OObject [("bible", VStr "leb")])
           "https://api.biblia.com/v1/bible/contents/leb?key=baz"
           (sampleResponse 200 "image/jpeg") []
           eq_refl eq_refl eq_refl eq_refl).
Defined.

Lemma createEndpoint_cases (fetch : FetchMethod) validateOptions render
    (t : transformer) (options : options_arg) (log : list event) :
  createEndpoint fetch validateOptions render (transformResponse t) options log
  = match validateOptions options with
    | Throw e => (log, Throw e)
    | Ok _ =>
        match render options with
        | Throw e => (log, Throw e)
        | Ok url =>
            match fetch url with
            | Throw e => ((log ++ [CallFetch url])%list, Throw e)
            | Ok response =>
                if negb (status response =? 200)%Z
                then ((log ++ [CallFetch url])%list, Throw (Thrown response))
                else if includes (expectedTypes t) (contentTypeOf response)
                then ((log ++ [CallFetch url; CallTransform; decodeOf t])%list,
                      settle (bodyOf response (decodeOf t)))
                else ((log ++ [CallFetch url; CallTransform])%list,
                      Throw (Error ("Unexpected response Content-Type: "
                                    ++ contentTypeOf response)))
            end
        end
    end.
Proof.
  unfold createEndpoint, callFetch, callTransform, bind, tell, lift.
  destruct (validateOptions options) as [[]|e]; [|reflexivity].
  destruct (render options) as [url|e]; [|reflexivity].
  destruct (fetch url) as [response|e]; [|reflexivity].
  destruct (negb (status response =? 200)%Z); [reflexivity|].
  rewrite transformResponse_cases.
  destruct (includes (expectedTypes t) (contentTypeOf response));
    now rewrite <- !app_assoc.
Qed.

Lemma expected_type_is_dispatched (t : transformer) (contentType : string) :
  includes (expectedTypes t) contentType = true ->
  decodeByContentType contentType = Some (decodeOf t).
Proof.
  intros Hin. apply memb_In in Hin.
  destruct t; cbn [expectedTypes] in Hin;
    repeat (destruct Hin as [<- | Hin]; [reflexivity|]); contradiction.
Qed.

(** X17. The two endpoint factories agree wherever the server answers with
    a content type the operation expects: if every response of status 200
    the fetch can settle to has such a type, an endpoint of lib/client.ts
    and the endpoint of index.js settle to the same outcome for the same
    options, and make the same fetch and decoding calls. *)
Theorem endpoints_agree_on_expected_types :
  forall (fetch : FetchMethod) validateOptions render (t : transformer)
         (options : options_arg),
    (forall url response,
        fetch url = Ok response -> status response = 200%Z ->
        includes (expectedTypes t) (contentTypeOf response) = true) ->
    outcomeOf (createEndpoint fetch validateOptions render
                 (transformResponse t) options)
    = outcomeOf (IndexJs.createEndpoint fetch validateOptions render options)
    /\ withoutTransform
         (callsOf (createEndpoint fetch validateOptions render
                     (transformResponse t) options))
       = callsOf (IndexJs.createEndpoint fetch validateOptions render options).
Proof.
  intros fetch validateOptions render t options Hexpected.
  unfold outcomeOf, callsOf.
  rewrite createEndpoint_cases, indexjs_createEndpoint_cases.
  destruct (validateOptions options) as [[]|e]; [|split; reflexivity].
  destruct (render options) as [url|e]; [|split; reflexivity].
  destruct (fetch url) as [response|e] eqn:Hfetch; [|split; reflexivity].
  destruct (status response =? 200)%Z eqn:Hstatus; cbn [negb];
    [|split; reflexivity].
  apply Z.eqb_eq in Hstatus.
  pose proof (Hexpected url response Hfetch Hstatus) as Hct.
  rewrite Hct, (expected_type_is_dispatched t _ Hct).
  split; [reflexivity|]. destruct t; reflexivity.
Qed.

Lemma endpoints_agree_on_expected_types_witness :
  outcomeOf (createEndpoint (sampleFetch (sampleResponse 200 "text/plain"))
               validateBibleContentOptions
               (renderUrl "baz" content) (transformResponse TextResult)
               (OObject [("bible", VStr "leb"); ("passage", VStr "John 3:16");
                         ("format", VStr "txt")]))
  = outcomeOf (IndexJs.createEndpoint
                 (sampleFetch (sampleResponse 200 "text/plain"))
                 validateBibleContentOptions (renderUrl "baz" content)
                 (OObject [("bible", VStr "leb"); ("passage", VStr "John 3:16");
                           ("format", VStr "txt")])).
Proof.
  refine (proj1 (endpoints_agree_on_expected_types
                   (sampleFetch (sampleResponse 200 "text/plain"))
                   validateBibleContentOptions (renderUrl "baz" content)
                   TextResult
                   (OObject [("bible", VStr "leb"); ("passage", VStr "John 3:16");
                             ("format", VStr "txt")]) _)).
  intros url response Hfetch _. injection Hfetch as <-. reflexivity.
Defined.

(** X18. The two URL renderers agree on every options object that defines
    each placeholder and holds no option with the value [undefined]: the
    check for a missing placeholder and the filter on [undefined] values are
    all that lib/client.ts adds to the renderer of index.js. *)
Theorem renderers_agree_without_undefined :
  forall (apiKey : string) (urlParts names : list string) (o : obj),
    (forall name, In name names -> get o name <> VUndefined) ->
    (forall key v, In (key, v) o -> v <> VUndefined) ->
    IndexJs.createUrlTemplate apiKey urlParts names (OObject o)
    = createUrlTemplate apiKey urlParts names (OObject o).
Proof.
  intros apiKey urlParts names o Hnames Hvalues.
  unfold IndexJs.createUrlTemplate, createUrlTemplate.
  rewrite (arrayMap_ext
             (fun name index =>
                Ok (encodeURIComponent (get o name) ++ part urlParts (index + 1)))
             (fun name index =>
                let value := get o name in
                if isUndefined value
                then Throw (Error ("Parameter " ++ name ++ " is required."))
                else Ok (encodeURIComponent value ++ part urlParts (index + 1)))).
  - rewrite (filter_ext_in
               (fun entry => negb (hashTruthy names (fst entry)))
               (fun entry => negb (hashTruthy names (fst entry))
                             && negb (isUndefined (snd entry)))).
    + reflexivity.
    + intros [key v] Hin. cbn [fst snd].
      rewrite (isUndefined_false v (Hvalues key v Hin)).
      now rewrite andb_true_r.
  - intros name i Hin. cbn zeta.
    now rewrite (isUndefined_false _ (Hnames name Hin)).
Qed.

Lemma renderers_agree_without_undefined_witness :
  IndexJs.createUrlTemplate "baz" ["bible/search/"; ""] ["bible"]
    (OObject [("bible", VStr "kjv"); ("query", VStr "love"); ("limit", VNum 5)])
  = createUrlTemplate "baz" ["bible/search/"; ""] ["bible"]
      (OObject [("bible", VStr "kjv"); ("query", VStr "love"); ("limit", VNum 5)]).
Proof.
  refine (renderers_agree_without_undefined "baz" ["bible/search/"; ""]
            ["bible"]
            [("bible", VStr "kjv"); ("query", VStr "love"); ("limit", VNum 5)]
            _ _).
  - intros name [<- | []]. discriminate.
  - intros key v [H | [H | [H | []]]]; injection H as <- <-; discriminate.
Defined.

(* ------------------------------------------------------------------ *)
(** *** The schemas of index.js against those of lib/client.ts *)

Lemma createOptionsValidator_supported (validators : Validators) (o : obj) :
  createOptionsValidator validators (OObject o) = Ok tt ->
  allSupported validators o = true.
Proof.
  intros Hok. rewrite createOptionsValidator_object in Hok.
  destruct (checkSupported (map fst validators) (keysOf o))
    as [[]|e] eqn:Hsup; [|discriminate Hok].
  now apply checkSupported_Ok.
Qed.

Lemma createOptionsValidator_intro (validators : Validators) (o : obj) :
  allSupported validators o = true ->
  (forall key factory,
      In (key, factory) validators -> factory key (get o key) = Ok tt) ->
  createOptionsValidator validators (OObject o) = Ok tt.
Proof.
  intros Hsup Hrules.
  rewrite createOptionsValidator_object.
  rewrite (checkSupported_throws_or_passes _ _ Hsup). cbn [bindResult].
  rewrite runValidators_Ok; [reflexivity|].
  intros key validate Hin.
  destruct (in_validateFunctionsOf _ _ _ Hin) as [factory [Hf ->]].
  now apply Hrules.
Qed.

Lemma schemaNoStricter_keys (first second : Validators) :
  schemaNoStricter first second -> map fst first = map fst second.
Proof.
  induction 1 as [|a b l l' [Hkey _] _ IH]; cbn [map].
  - reflexivity.
  - now rewrite Hkey, IH.
Qed.

Lemma schemaNoStricter_rules (first second : Validators) (o : obj) :
  schemaNoStricter first second ->
  (forall key f, In (key, f) first -> f key (get o key) = Ok tt) ->
  forall key g, In (key, g) second -> g key (get o key) = Ok tt.
Proof.
  induction 1 as [|[k f] [k' g'] l l' [Hkey Hrule] _ IH];
    intros Hfirst key g Hin.
  - contradiction.
  - cbn [fst snd] in Hkey, Hrule. subst k'.
    destruct Hin as [Heq | Hin].
    + injection Heq as <- <-. apply Hrule.
      apply Hfirst. now left.
    + apply IH; [|exact Hin].
      intros key0 f0 Hin0. apply Hfirst. now right.
Qed.

Lemma typeof_rule_no_stricter (fn : ValidationFactory) (expectedType : string) :
  (forall optionName v,
      fn optionName v = Ok tt -> typeof v = expectedType) ->
  acceptsNoMore fn (required (IndexJs.validateTypeOf expectedType))
  /\ acceptsNoMore (optional (allowOptional fn))
       (optional (IndexJs.validateTypeOf expectedType)).
Proof.
  intros Hty. split; intros optionName v Hok; cbn in *.
  - rewrite (Hty optionName v Hok). now rewrite String.eqb_refl.
  - destruct (isUndefined v); [reflexivity|]. cbn [negb].
    rewrite (Hty optionName v Hok). now rewrite String.eqb_refl.
Qed.

Lemma typeof_of_accepted (expectedType : string) (message : string -> string)
    (optionName : string) (v : value) :
  (if negb (String.eqb (typeof v) expectedType)
   then Throw (Error (message optionName))
   else Ok tt) = Ok tt ->
  typeof v = expectedType.
Proof.
  destruct (String.eqb_spec (typeof v) expectedType) as [Heq|Hne];
    cbn [negb]; intros H; [exact Heq | discriminate H].
Qed.

Lemma enum_rule_no_stricter (values values' : list string) :
  incl (map toLowerCase values) (map toLowerCase values') ->
  acceptsNoMore (required (validateEnumMembership values))
    (required (IndexJs.validateEnumMembership values'))
  /\ acceptsNoMore (optional (validateEnumMembership values))
       (optional (IndexJs.validateEnumMembership values')).
Proof.
  intros Hincl.
  assert (Hreq : acceptsNoMore (required (validateEnumMembership values))
                   (required (IndexJs.validateEnumMembership values'))).
  { intros optionName v Hok.
    destruct v as [| | b | n | s | c repr]; try discriminate Hok.
    cbn in Hok |- *.
    destruct (hashTruthy (map toLowerCase values) (toLowerCase s)) eqn:Hhash;
      [|discriminate Hok].
    assert (Hhash' : hashTruthy (map toLowerCase values') (toLowerCase s) = true).
    { unfold hashTruthy in *. apply orb_true_iff in Hhash.
      apply orb_true_iff. destruct Hhash as [Hown | Hinh]; [left | now right].
      apply memb_In. apply Hincl. now apply memb_In. }
    now rewrite Hhash'. }
  split; [exact Hreq|].
  intros optionName v Hok.
  change (optional (validateEnumMembership values) optionName v)
    with (if isUndefined v then Ok tt
          else required (validateEnumMembership values) optionName v) in Hok.
  change (optional (IndexJs.validateEnumMembership values') optionName v)
    with (if negb (isUndefined v)
          then required (IndexJs.validateEnumMembership values') optionName v
          else Ok tt).
  destruct (isUndefined v); [reflexivity|]. cbn [negb].
  now apply Hreq.
Qed.

Lemma schemas_no_stricter (op : operation) :
  schemaNoStricter (schemaOf op) (IndexJs.schemaOf op).
Proof.
  pose proof (typeof_rule_no_stricter (required validateIsString) "string"
                (typeof_of_accepted "string"
                   (fun n => "Option " ++ n ++ " must be a string."))) as [Hs Hso].
  pose proof (typeof_rule_no_stricter (required validateIsBoolean) "boolean"
                (typeof_of_accepted "boolean"
                   (fun n => "Option " ++ n ++ " must be a boolean."))) as [Hb Hbo].
  pose proof (typeof_rule_no_stricter (required validateIsNumber) "number"
                (typeof_of_accepted "number"
                   (fun n => "Option " ++ n ++ " must be a number."))) as [Hn Hno].
  assert (Henum : forall values,
             acceptsNoMore (required (validateEnumMembership values))
               (required (IndexJs.validateEnumMembership values))
             /\ acceptsNoMore (optional (validateEnumMembership values))
                  (optional (IndexJs.validateEnumMembership values))).
  { intros values. apply enum_rule_no_stricter. apply incl_refl. }
  assert (Hformat :
    acceptsNoMore (required (validateEnumMembership ["txt"; "html"; "txt"; "html"]))
      (required (IndexJs.validateEnumMembership
                   ["txt"; "html"; "txt.json"; "html.json"]))).
  { apply enum_rule_no_stricter. intros x Hx. cbn in Hx |- *. tauto. }
  destruct op; unfold schemaNoStricter;
    repeat (apply Forall2_cons; [split; [reflexivity|]|]);
    try apply Forall2_nil;
    first [ exact Hs | exact Hso | exact Hb | exact Hbo | exact Hn | exact Hno
          | exact Hformat | apply Henum ].
Qed.

(** X19. For every operation, index.js accepts every options object that
    lib/client.ts accepts: the two schemas declare the same keys in the same
    order, and each rule of index.js accepts what the rule of lib/client.ts
    for that key accepts.  (The converse fails: index.js also takes the
    formats [txt.json] and [html.json].) *)
Theorem indexjs_accepts_what_client_accepts :
  forall (op : operation) (o : obj),
    createOptionsValidator (schemaOf op) (OObject o) = Ok tt ->
    map fst (IndexJs.schemaOf op) = declaredKeys op
    /\ createOptionsValidator (IndexJs.schemaOf op) (OObject o) = Ok tt.
Proof.
  intros op o Hok.
  pose proof (schemas_no_stricter op) as Hschemas.
  pose proof (schemaNoStricter_keys _ _ Hschemas) as Hkeys.
  split; [now symmetry|].
  apply createOptionsValidator_intro.
  - unfold allSupported. rewrite <- Hkeys.
    now apply createOptionsValidator_supported.
  - apply (schemaNoStricter_rules _ _ o Hschemas).
    now apply createOptionsValidator_each.
Qed.

Lemma indexjs_accepts_what_client_accepts_witness :
  createOptionsValidator (IndexJs.schemaOf search)
    (OObject [("bible", VStr "KJV"); ("query", VStr "love"); ("start", VNum 0)])
  = Ok tt.
Proof.
  exact (proj2 (indexjs_accepts_what_client_accepts search
                  [("bible", VStr "KJV"); ("query", VStr "love"); ("start", VNum 0)]
                  eq_refl)).
Defined.

(* ------------------------------------------------------------------ *)
(** *** Placeholders of validated options *)

Lemma Encode_unreserved (s : string) : allUnreserved s = true -> Encode s = s.
Proof.
  unfold allUnreserved.
  induction s as [|c s IH]; cbn [Encode list_ascii_of_string forallb].
  - reflexivity.
  - intros H. apply andb_true_iff in H. destruct H as [Hc Hs].
    unfold encodeUnit. rewrite Hc. cbn [append]. now rewrite IH.
Qed.

(* ------------------------------------------------------------------ *)
(** *** The renderer of index.js *)


(* ------------------------------------------------------------------ *)
(** *** Validation and the order of the options *)

Lemma getOwn_In {A : Type} (o : list (string * A)) (key : string) (v : A) :
  NoDup (map fst o) -> (getOwn o key = Some v <-> In (key, v) o).
Proof.
  induction o as [|[k w] rest IH]; intros Hnodup; cbn [getOwn].
  - split; [intros H; discriminate H | intros []].
  - inversion Hnodup as [|x l Hnotin Hrest]; subst.
    destruct (String.eqb_spec k key) as [-> | Hne].
    + split.
      * intros H. injection H as ->. now left.
      * intros [Heq | Hin].
        -- now injection Heq as ->.
        -- elim Hnotin. now apply (in_map fst rest (key, v)).
    + rewrite (IH Hrest). split.
      * intros Hin. now right.
      * intros [Heq | Hin]; [|exact Hin].
        injection Heq as Hk _. now elim Hne.
Qed.

Lemma getOwn_Permutation {A : Type} (o o' : list (string * A)) (key : string) :
  NoDup (map fst o) -> Permutation o o' -> getOwn o key = getOwn o' key.
Proof.
  intros Hnodup Hperm.
  assert (Hnodup' : NoDup (map fst o')).
  { apply (Permutation_NoDup (Permutation_map fst Hperm) Hnodup). }
  destruct (getOwn o key) as [v|] eqn:Hget.
  - symmetry. apply (getOwn_In o' key v Hnodup').
    apply (Permutation_in _ Hperm). now apply (getOwn_In o key v Hnodup).
  - destruct (getOwn o' key) as [v'|] eqn:Hget'; [|reflexivity].
    apply (getOwn_In o' key v' Hnodup') in Hget'.
    apply (Permutation_in _ (Permutation_sym Hperm)) in Hget'.
    apply (getOwn_In o key v' Hnodup) in Hget'.
    rewrite Hget in Hget'. discriminate Hget'.
Qed.

Lemma runValidators_ext (validateFunctions : list (string * Validator))
    (o o' : obj) :
  (forall key, get o key = get o' key) ->
  runValidators validateFunctions o = runValidators validateFunctions o'.
Proof.
  intros Hget. induction validateFunctions as [|[k v] rest IH].
  - reflexivity.
  - cbn [runValidators]. now rewrite Hget, IH.
Qed.

Lemma forallb_Permutation {A : Type} (f : A -> bool) (l l' : list A) :
  Permutation l l' -> forallb f l = forallb f l'.
Proof.
  induction 1 as [|x l l' _ IH|x y l|l l' l'' _ IH1 _ IH2]; cbn [forallb].
  - reflexivity.
  - now rewrite IH.
  - destruct (f x), (f y); reflexivity.
  - now rewrite IH1.
Qed.

(** X23. Validation does not depend on the order in which the options were
    written: for an object all of whose keys are answered for, any
    reordering of its entries gets the same verdict, the same error
    included.  (Only the choice of which unsupported key is named depends on
    the order.) *)
Theorem validation_ignores_option_order :
  forall (validators : Validators) (o o' : obj),
    NoDup (keysOf o) ->
    Permutation o o' ->
    allSupported validators o = true ->
    createOptionsValidator validators (OObject o')
    = createOptionsValidator validators (OObject o).
Proof.
  intros validators o o' Hnodup Hperm Hsup.
  rewrite !createOptionsValidator_object.
  assert (Hsup' : allSupported validators o' = true).
  { unfold allSupported, keysOf in *.
    now rewrite <- (forallb_Permutation _ _ _ (Permutation_map fst Hperm)). }
  rewrite (checkSupported_throws_or_passes _ _ Hsup).
  rewrite (checkSupported_throws_or_passes _ _ Hsup').
  cbn [bindResult]. f_equal.
  apply runValidators_ext. intros key. unfold get.
  now rewrite (getOwn_Permutation o o' key Hnodup Hperm).
Qed.

Lemma validation_ignores_option_order_witness :
  createOptionsValidator compareOptions
    (OObject [("second", VNum 2); ("first", VStr "Genesis 1:1")])
  = createOptionsValidator compareOptions
      (OObject [("first", VStr "Genesis 1:1"); ("second", VNum 2)]).
Proof.
  refine (validation_ignores_option_order compareOptions
            [("first", VStr "Genesis 1:1"); ("second", VNum 2)]
            [("second", VNum 2); ("first", VStr "Genesis 1:1")]
            _ (perm_swap _ _ _) eq_refl).
  repeat constructor; cbn; intuition discriminate.
Defined.

(* ------------------------------------------------------------------ *)
(** *** Calls without options *)

(** X24. Every operation needs an options object, also the operations all
    of whose options are optional: called with [undefined] or [null], an
    operation of either client rejects with [Options is required.] and
    fetches nothing. *)
Theorem call_without_options_is_rejected :
  forall (apiKey : string) (fetch : FetchMethod) (op : operation)
         (log : list event),
    createBibliaApiClient apiKey fetch op OUndefined log
      = (log, Throw (Error "Options is required."))
    /\ createBibliaApiClient apiKey fetch op ONull log
      = (log, Throw (Error "Options is required."))
    /\ IndexJs.createBibliaApiClient apiKey fetch op OUndefined log
      = (log, Throw (Error "Options is required."))
    /\ IndexJs.createBibliaApiClient apiKey fetch op ONull log
      = (log, Throw (Error "Options is required.")).
Proof.
  intros apiKey fetch op log.
  split; [|split; [|split]].
  - now rewrite createBibliaApiClient_cases.
  - now rewrite createBibliaApiClient_cases.
  - unfold IndexJs.createBibliaApiClient.
    now rewrite indexjs_createEndpoint_cases.
  - unfold IndexJs.createBibliaApiClient.
    now rewrite indexjs_createEndpoint_cases.
Qed.

(* ================================================================== *)
(** ** What the renderer returns, and when it returns nothing *)
(* ================================================================== *)





(** C8, as stated: the renderer of index.js, which the claim covers as
    well, returns a URL for an options object that lacks the placeholder. *)
Lemma indexjs_returns_url_for_absent_placeholder :
  get [] "bible" = VUndefined
  /\ IndexJs.createUrlTemplate "baz" ["bible/contents/"; ""] ["bible"]
       (OObject [])
     = Ok "https://api.biblia.com/v1/bible/contents/undefined?key=baz"
  /\ IndexJs.createUrlTemplate "baz" ["bible/contents/"; ""] ["bible"]
       (OObject [])
     <> Throw (Error "Parameter bible is required.").
Proof.
  split; [reflexivity|]. split; [reflexivity|]. discriminate.
Qed.

(** C8, amended.  When the option named by some placeholder of a template
    is [undefined], the renderer of lib/client.ts returns no URL, and the
    only [Error] it raises is [Parameter <name> is required.] for the first
    placeholder in template order whose option is [undefined].  It raises
    exactly that when the values of the placeholders before it are ASCII
    text, in particular when there is none before it; placeholders are
    checked and encoded one after the other, so encoding an earlier value
    comes first. *)
Theorem absent_placeholder_yields_no_url :
  forall (apiKey : string) (urlParts names : list string) (o : obj)
         (name : string),
    In name names ->
    get o name = VUndefined ->
    exists missing,
      firstMissing o names = Some missing
      /\ In missing names
      /\ get o missing = VUndefined
      /\ (forall url,
            createUrlTemplate apiKey urlParts names (OObject o) <> Ok url)
      /\ (forall message,
            createUrlTemplate apiKey urlParts names (OObject o)
              = Throw (Error message) ->
            message = "Parameter " ++ missing ++ " is required.")
      /\ (forall before rest,
            names = (before ++ missing :: rest)%list ->
            (forall earlier, In earlier before ->
                             asciiOnly (ToString (get o earlier)) = true) ->
            createUrlTemplate apiKey urlParts names (OObject o)
            = Throw (Error ("Parameter " ++ missing ++ " is required."))).
Proof.
  intros apiKey urlParts names o name Hin Hundef.
  destruct (firstMissing_exists o names name Hin Hundef) as [missing Hfind].
  pose proof (find_some _ _ Hfind) as [Hmin Hmundef]. cbn in Hmundef.
  apply isUndefined_true in Hmundef.
  pose proof (createUrlTemplate_missing apiKey urlParts o names missing Hfind)
    as Hthrow.
  exists missing. repeat split; try assumption.
  - intros url Hurl. rewrite Hthrow in Hurl. discriminate Hurl.
  - intros message Hmsg. rewrite Hthrow in Hmsg. now injection Hmsg as <-.
  - intros before rest _ _. exact Hthrow.
Qed.

(** The content template without [format], the bible being plain text,
    asks for [format]. *)
Lemma absent_placeholder_yields_no_url_witness :
  createUrlTemplate "baz" ["bible/content/"; "."; ""] ["bible"; "format"]
    (OObject [("bible", VStr "leb"); ("passage", VStr "Genesis 1:1")])
  = Throw (Error "Parameter format is required.").
Proof.
  destruct (absent_placeholder_yields_no_url "baz"
              ["bible/content/"; "."; ""] ["bible"; "format"]
              [("bible", VStr "leb"); ("passage", VStr "Genesis 1:1")]
              "format" ltac:(right; left; reflexivity) eq_refl)
    as [missing [Hfind [_ [_ [_ [_ Hexact]]]]]].
  cbn in Hfind. injection Hfind as <-.
  refine (Hexact ["bible"] [] eq_refl _).
  intros earlier [<- | []]. reflexivity.
Defined.

(* ------------------------------------------------------------------ *)
(** *** Validated calls and their placeholders *)



Lemma enum_accepted_lower_unreserved (values : list string)
    (optionName : string) (v : value) :
  forallb allUnreserved (map toLowerCase values) = true ->
  required (validateEnumMembership values) optionName v = Ok tt ->
  exists s, v = VStr s /\ allUnreserved (toLowerCase s) = true.
Proof.
  intros Hvalues Hok.
  destruct v as [| | b | n | s | c repr]; try discriminate Hok.
  exists s. split; [reflexivity|].
  cbn in Hok.
  destruct (hashTruthy (map toLowerCase values) (toLowerCase s)) eqn:Hhash;
    [|discriminate Hok].
  unfold hashTruthy in Hhash. apply orb_true_iff in Hhash.
  destruct Hhash as [Hown | Hinh].
  - rewrite forallb_forall in Hvalues. apply Hvalues. now apply memb_In.
  - apply lowered_inherited_name in Hinh. destruct Hinh as [-> | ->]; reflexivity.
Qed.

Lemma ascii_lowerUnit_unreserved (c : ascii) :
  (N_of_ascii c <? 128)%N = true ->
  uriUnreserved (lowerUnit c) = true -> uriUnreserved c = true.
Proof.
  destruct c as [[] [] [] [] [] [] [] []];
    vm_compute; intros Hascii H; solve [reflexivity | discriminate].
Qed.

Lemma ascii_spelling_unreserved (s : string) :
  asciiOnly s = true ->
  allUnreserved (toLowerCase s) = true -> allUnreserved s = true.
Proof.
  unfold asciiOnly, allUnreserved.
  induction s as [|c s IH]; cbn [toLowerCase list_ascii_of_string forallb].
  - reflexivity.
  - intros Hascii Hlower.
    apply andb_true_iff in Hascii. destruct Hascii as [Hc Hs].
    apply andb_true_iff in Hlower. destruct Hlower as [Hlc Hls].
    apply andb_true_iff. split.
    + now apply ascii_lowerUnit_unreserved.
    + now apply IH.
Qed.

(** X20. In a validated call the value of every placeholder is a string
    whose lower-case form consists of unreserved characters only: it is the
    lower-case form of an allowed value, or [constructor], or [__proto__].
    The value is not normalised: a spelling in ASCII characters is written
    into the path exactly as the caller gave it, letter case kept. *)
Theorem validated_placeholder_keeps_spelling :
  forall (op : operation) (o : obj) (name : string),
    createOptionsValidator (schemaOf op) (OObject o) = Ok tt ->
    In name (namesOf op) ->
    exists s,
      get o name = VStr s
      /\ allUnreserved (toLowerCase s) = true
      /\ (asciiOnly s = true -> encodeURIComponent (get o name) = s).
Proof.
  intros op o name Hok Hin.
  pose proof (createOptionsValidator_each _ o Hok) as Heach.
  assert (Hlower : exists s, get o name = VStr s
                             /\ allUnreserved (toLowerCase s) = true).
  { destruct op; cbn [namesOf] in Hin;
      repeat (destruct Hin as [<- | Hin]);
      try contradiction;
      match goal with
      | |- exists s, get o "bible" = _ /\ _ =>
          apply (enum_accepted_lower_unreserved availableBibles "bible");
          [reflexivity|];
          apply (Heach "bible" (required bibleVersionValidator))
      | |- exists s, get o "format" = _ /\ _ =>
          apply (enum_accepted_lower_unreserved
                   ["txt"; "html"; "txt"; "html"] "format");
          [reflexivity|];
          apply (Heach "format"
                   (required (validateEnumMembership
                                ["txt"; "html"; "txt"; "html"])))
      end;
      cbn; auto 10. }
  destruct Hlower as [s [Hget Hs]].
  exists s. split; [exact Hget|]. split; [exact Hs|].
  intros Hascii. rewrite Hget. unfold encodeURIComponent. cbn [ToString].
  apply Encode_unreserved. now apply ascii_spelling_unreserved.
Qed.

Lemma validated_placeholder_keeps_spelling_witness :
  exists s,
    get [("bible", VStr "KJV1900")] "bible" = VStr s
    /\ allUnreserved (toLowerCase s) = true
    /\ (asciiOnly s = true
        -> encodeURIComponent (get [("bible", VStr "KJV1900")] "bible") = s).
Proof.
  exact (validated_placeholder_keeps_spelling image [("bible", VStr "KJV1900")]
           "bible" eq_refl ltac:(left; reflexivity)).
Defined.

(* ------------------------------------------------------------------ *)
(** *** Components that encoding leaves alone *)

(** X12. Encoding leaves a component unchanged exactly when every
    character of it is unreserved, that is a letter, a digit or one of
    [- _ . ! ~ * ' ( )], and it never makes a component shorter. *)
Theorem encoding_is_identity_exactly_on_unreserved :
  forall (s : string),
    (Encode s = s <-> allUnreserved s = true)
    /\ (String.length s <= String.length (Encode s))%nat.
Proof.
  intros s. split; [|apply Encode_length].
  unfold allUnreserved.
  induction s as [|c s IH]; cbn [Encode list_ascii_of_string forallb].
  - split; reflexivity.
  - pose proof (encodeUnit_length c) as Hc.
    destruct (uriUnreserved c); cbn [andb].
    + rewrite Hc. cbn [append]. split.
      * intros Heq. injection Heq as Heq. now apply IH.
      * intros Hall. f_equal. now apply IH.
    + split; [|intros H; discriminate H].
      intros Heq. apply (f_equal String.length) in Heq.
      rewrite length_append in Heq. cbn [String.length] in Heq.
      pose proof (Encode_length s). lia.
Qed.

(* ------------------------------------------------------------------ *)
(** *** The renderer and the enum rule of index.js *)



